(** * Task-tracking REST API: services, repositories and authorization

    A shallow embedding of the functional core of the API
    (routes -> services -> repositories -> Prisma client -> store) and
    the properties its specification states about it.

    The asynchronous, exception-throwing TypeScript code is written in a
    state-and-error monad over an explicit store.  The Prisma client is
    an external library: its operations are given their documented
    meaning on the two tables of [prisma/schema.prisma]. *)

From stdpp Require Import gmap strings list fin_maps sorting.
From Stdlib Require Import ZArith Ascii String.

Local Open Scope string_scope.
Local Open Scope Z_scope.

(** ** JavaScript values of request fields *)

(** A field of a JSON body or query string as the handlers see it: the
    property is missing ([undefined]), [null], or a string. *)
Inductive jsval : Type :=
| JUndefined
| JNull
| JStr (s : string).

#[global] Instance jsval_eq_dec : EqDecision jsval.
Proof. solve_decision. Defined.

(** ToBoolean: [undefined], [null] and the empty string are falsy. *)
Definition truthy (v : jsval) : bool :=
  match v with
  | JStr s => negb (String.eqb s "")
  | _ => false
  end.

(** [c && { k: v }] spread into an object literal: the key is set when
    [c] is truthy and missing otherwise. *)
Definition spread_if (c : bool) (v : jsval) : jsval :=
  if c then v else JUndefined.

(** [a || b] *)
Definition js_or (a b : jsval) : jsval :=
  if truthy a then a else b.

(** [!userId] for a [string | undefined]. *)
Definition falsy (o : option string) : bool :=
  match o with
  | None => true
  | Some s => String.eqb s ""
  end.

(** ** Data model (prisma/schema.prisma) *)

Inductive TaskStatus : Type := TODO | IN_PROGRESS | DONE | ARCHIVED.

#[global] Instance TaskStatus_eq_dec : EqDecision TaskStatus.
Proof. solve_decision. Defined.

Definition TaskStatus_name (s : TaskStatus) : string :=
  match s with
  | TODO => "TODO"
  | IN_PROGRESS => "IN_PROGRESS"
  | DONE => "DONE"
  | ARCHIVED => "ARCHIVED"
  end.

(** The enum value a string denotes, if any. *)
Definition TaskStatus_parse (s : string) : option TaskStatus :=
  if String.eqb s "TODO" then Some TODO
  else if String.eqb s "IN_PROGRESS" then Some IN_PROGRESS
  else if String.eqb s "DONE" then Some DONE
  else if String.eqb s "ARCHIVED" then Some ARCHIVED
  else None.

Module User.
(** Modelled from the spec: [prisma/schema.prisma] is not among the
    sources.  A user has a generated identifier, a unique email, a name
    and two timestamps, as in the data model of the specification, the
    schema quoted in [plan.md] and the rows of [prisma/seed.ts]. *)
Record t : Type := mk {
  id : string;
  email : string;
  name : string;
  createdAt : Z;
  updatedAt : Z;
}.
End User.

Module Task.
(** Modelled from the spec: [prisma/schema.prisma] is not among the
    sources.  A task has a generated identifier, a title, an optional
    description, a status, the identifier of its owner and two
    timestamps, as in the data model of the specification, the schema
    quoted in [plan.md] and the rows of [prisma/seed.ts]. *)
Record t : Type := mk {
  id : string;
  title : string;
  description : option string;   (* String? *)
  status : TaskStatus;
  userId : string;
  createdAt : Z;
  updatedAt : Z;
}.
End Task.

#[global] Instance User_eq_dec : EqDecision User.t.
Proof. solve_decision. Defined.

#[global] Instance Task_eq_dec : EqDecision Task.t.
Proof. solve_decision. Defined.

(** ** Request bodies (src/types) *)

Module CreateTaskBody.
Record t : Type := mk { title : jsval; description : jsval; status : jsval }.
End CreateTaskBody.

Module UpdateTaskBody.
Record t : Type := mk { title : jsval; description : jsval; status : jsval }.
End UpdateTaskBody.

Module CreateUserBody.
Record t : Type := mk { email : string; name : string }.
End CreateUserBody.

Module TaskFilters.
Record t : Type := mk { status : jsval }.
End TaskFilters.

(** ** Errors *)

Inductive PrismaFailure : Type :=
| P2002   (* unique constraint failed *)
| P2003   (* foreign key constraint failed *)
| P2025   (* record to update or delete not found *)
| PrismaClientValidationError.

(** Whatever can be thrown.  [AppError] carries the three properties
    every application error class sets; a Fastify validation error is an
    error whose [validation] property is set; a Prisma failure has no
    [statusCode]; any other error, such as those the framework and its
    plugins raise before a route runs, has a message and may carry a
    [statusCode] of its own. *)
Inductive Error : Type :=
| AppError (statusCode : Z) (code : string) (message : string)
| FastifyValidation
| PrismaError (f : PrismaFailure)
| GenericError (statusCode : option Z) (message : string).

#[global] Instance PrismaFailure_eq_dec : EqDecision PrismaFailure.
Proof. solve_decision. Defined.

#[global] Instance Error_eq_dec : EqDecision Error.
Proof. solve_decision. Defined.

(** Modelled from the spec: the error classes of [utils/errors.ts] are
    not among the sources.  Each is an [AppError] with the status code
    of the error taxonomy (NotFound 404, Unauthenticated 401, Forbidden
    403, ValidationError 400, Conflict 409); the unit tests of
    [utils/errors] assert these, the codes and the message
    ["<resource> not found"]. *)
Definition NotFoundError (resource : string) : Error :=
  AppError 404 "NOT_FOUND" (resource ++ " not found").

(** Modelled from the spec: [UnauthorizedError] of [utils/errors.ts],
    Unauthenticated, 401. *)
Definition UnauthorizedError (message : string) : Error :=
  AppError 401 "UNAUTHORIZED" message.

(** Modelled from the spec: [ForbiddenError] of [utils/errors.ts],
    Forbidden, 403. *)
Definition ForbiddenError (message : string) : Error :=
  AppError 403 "FORBIDDEN" message.

(** Modelled from the spec: [ValidationError] of [utils/errors.ts],
    400. *)
Definition ValidationError (message : string) : Error :=
  AppError 400 "VALIDATION_ERROR" message.

(** Modelled from the spec: [ConflictError] of [utils/errors.ts],
    Conflict, 409. *)
Definition ConflictError (message : string) : Error :=
  AppError 409 "CONFLICT" message.

(** ** The store and the monad of asynchronous code *)

Inductive UserWhereUniqueInput : Type :=
| WhereId (id : string)
| WhereEmail (email : string).

(** The calls made on the Prisma client, in order. *)
Inductive Query : Type :=
| UserFindUnique (w : UserWhereUniqueInput)
| UserCreate (email : string)
| TaskFindUnique (id : string)
| TaskFindMany (userId : string)
| TaskFindManyAnyOwner
| TaskCreate (userId : jsval)
| TaskUpdate (id : string)
| TaskDelete (id : string).

#[global] Instance UserWhereUniqueInput_eq_dec : EqDecision UserWhereUniqueInput.
Proof. solve_decision. Defined.

#[global] Instance Query_eq_dec : EqDecision Query.
Proof. solve_decision. Defined.

(** The two tables, keyed by primary key, and the calls made so far. *)
Record Db : Type := mkDb {
  users : gmap string User.t;
  tasks : gmap string Task.t;
  queries : list Query;
}.

(** What the store decides on its own when it writes a row: the
    [uuid()] of a new primary key and the reading of the clock used by
    [now()] and [@updatedAt]. *)
Record Env : Type := mkEnv {
  uuid : string;
  now : Z;
}.

Inductive Result (A : Type) : Type :=
| Ok (a : A)
| Throw (e : Error).
Arguments Ok {A} a.
Arguments Throw {A} e.

(** A [Promise<A>] run against the store. *)
Definition Async (A : Type) : Type := Db → Result A * Db.

Definition ret {A} (a : A) : Async A := λ db, (Ok a, db).
Definition throw {A} (e : Error) : Async A := λ db, (Throw e, db).
Definition bind {A B} (m : Async A) (k : A → Async B) : Async B :=
  λ db, match m db with
        | (Ok a, db') => k a db'
        | (Throw e, db') => (Throw e, db')
        end.

Declare Scope async_scope.
Delimit Scope async_scope with async.
Notation "'await' x ':=' m 'in' k" := (bind m (λ x, k))
  (at level 10, x name, m at level 100, k at level 200) : async_scope.
Local Open Scope async_scope.

Definition record (q : Query) : Async unit :=
  λ db, (Ok tt, mkDb (users db) (tasks db) (queries db ++ [q])).

Definition rows {V} (m : gmap string V) : list V := (map_to_list m).*2.

Definition set_users (us : gmap string User.t) : Async unit :=
  λ db, (Ok tt, mkDb us (tasks db) (queries db)).

Definition set_tasks (ts : gmap string Task.t) : Async unit :=
  λ db, (Ok tt, mkDb (users db) ts (queries db)).

Definition get_users : Async (gmap string User.t) := λ db, (Ok (users db), db).
Definition get_tasks : Async (gmap string Task.t) := λ db, (Ok (tasks db), db).

(** ** The Prisma client

    The client checks the arguments of a call against the schema before
    it talks to the store ([PrismaClientValidationError]); the store
    then enforces the primary keys, the unique email and the foreign
    key of [tasks.userId].  A key whose value is [undefined] counts as
    missing. *)

Inductive SortOrder : Type := asc | desc.

Module TaskWhereInput.
Record t : Type := mk { userId : string; status : jsval }.
End TaskWhereInput.

(** The [data] object of [task.create] and [task.update]. *)
Module TaskData.
Record t : Type := mk {
  title : jsval;
  description : jsval;
  status : jsval;
  userId : jsval;
}.
End TaskData.

(** A checked [data] object: per column, the value to write, if any. *)
Module TaskPatch.
Record t : Type := mk {
  title : option string;
  description : option (option string);
  status : option TaskStatus;
  userId : option string;
}.
End TaskPatch.

(** [String]: a string, never [null]. *)
Definition check_string (v : jsval) : option (option string) :=
  match v with
  | JUndefined => Some None
  | JNull => None
  | JStr s => Some (Some s)
  end.

(** [String?]: a string or [null]. *)
Definition check_nullable (v : jsval) : option (option (option string)) :=
  match v with
  | JUndefined => Some None
  | JNull => Some (Some None)
  | JStr s => Some (Some (Some s))
  end.

(** [TaskStatus]: the name of an enum value. *)
Definition check_status (v : jsval) : option (option TaskStatus) :=
  match v with
  | JUndefined => Some None
  | JNull => None
  | JStr s => match TaskStatus_parse s with
              | Some st => Some (Some st)
              | None => None
              end
  end.

Definition check_data (d : TaskData.t) : option TaskPatch.t :=
  match check_string (TaskData.title d),
        check_nullable (TaskData.description d),
        check_status (TaskData.status d),
        check_string (TaskData.userId d) with
  | Some t, Some de, Some st, Some u => Some (TaskPatch.mk t de st u)
  | _, _, _, _ => None
  end.

Definition validated {A} (o : option A) : Async A :=
  match o with
  | Some a => ret a
  | None => throw (PrismaError PrismaClientValidationError)
  end.

(** [orderBy: { createdAt: o }] *)
Definition createdAt_order (o : SortOrder) (a b : Task.t) : Prop :=
  match o with
  | asc => Task.createdAt a ≤ Task.createdAt b
  | desc => Task.createdAt b ≤ Task.createdAt a
  end.

#[global] Instance createdAt_order_dec o : RelDecision (createdAt_order o).
Proof. intros a b; destruct o; simpl; apply _. Defined.

Definition matches (userId : string) (st : option TaskStatus) (t : Task.t) : Prop :=
  Task.userId t = userId ∧
  match st with Some s => Task.status t = s | None => True end.

#[global] Instance matches_dec userId st t : Decision (matches userId st t).
Proof. unfold matches; destruct st; apply _. Defined.

Module prisma.

Module user.

Definition findUnique (where_ : UserWhereUniqueInput) : Async (option User.t) :=
  await _ := record (UserFindUnique where_) in
  await us := get_users in
  ret (match where_ with
       | WhereId id => us !! id
       | WhereEmail email =>
           head (filter (λ u, User.email u = email) (rows us))
       end).

Definition create (env : Env) (data : CreateUserBody.t) : Async User.t :=
  await _ := record (UserCreate (CreateUserBody.email data)) in
  await us := get_users in
  match us !! uuid env,
        head (filter (λ u, User.email u = CreateUserBody.email data) (rows us)) with
  | None, None =>
      let u := User.mk (uuid env) (CreateUserBody.email data)
                 (CreateUserBody.name data) (now env) (now env) in
      await _ := set_users (<[uuid env := u]> us) in
      ret u
  | _, _ => throw (PrismaError P2002)
  end.

End user.

Module task.

Definition findUnique (id : string) : Async (option Task.t) :=
  await _ := record (TaskFindUnique id) in
  await ts := get_tasks in
  ret (ts !! id).

Definition findMany (where_ : TaskWhereInput.t) (orderBy : SortOrder)
  : Async (list Task.t) :=
  await _ := record (TaskFindMany (TaskWhereInput.userId where_)) in
  await st := validated (check_status (TaskWhereInput.status where_)) in
  await ts := get_tasks in
  ret (merge_sort (createdAt_order orderBy)
         (filter (matches (TaskWhereInput.userId where_) st) (rows ts))).

Definition create (env : Env) (data : TaskData.t) : Async Task.t :=
  await _ := record (TaskCreate (TaskData.userId data)) in
  await p := validated (check_data data) in
  match TaskPatch.title p, TaskPatch.userId p with
  | Some title, Some userId =>
      await us := get_users in
      await ts := get_tasks in
      match ts !! uuid env, us !! userId with
      | Some _, _ => throw (PrismaError P2002)
      | None, None => throw (PrismaError P2003)
      | None, Some _ =>
          let t := Task.mk (uuid env) title
                     (default None (TaskPatch.description p))
                     (default TODO (TaskPatch.status p))
                     userId (now env) (now env) in
          await _ := set_tasks (<[uuid env := t]> ts) in
          ret t
      end
  | _, _ => throw (PrismaError PrismaClientValidationError)
  end.

(** A [data] object without any column. *)
Definition patch_is_empty (p : TaskPatch.t) : bool :=
  match TaskPatch.title p, TaskPatch.description p,
        TaskPatch.status p, TaskPatch.userId p with
  | None, None, None, None => true
  | _, _, _, _ => false
  end.

(** The row after an update.  [@updatedAt] is set together with the
    columns of [data]: with an empty [data] nothing is written and the
    row, its [updatedAt] included, stays as it is. *)
Definition apply_patch (env : Env) (p : TaskPatch.t) (t : Task.t) : Task.t :=
  Task.mk (Task.id t)
    (default (Task.title t) (TaskPatch.title p))
    (default (Task.description t) (TaskPatch.description p))
    (default (Task.status t) (TaskPatch.status p))
    (default (Task.userId t) (TaskPatch.userId p))
    (Task.createdAt t)
    (if patch_is_empty p then Task.updatedAt t else now env).

Definition update (env : Env) (id : string) (data : TaskData.t) : Async Task.t :=
  await _ := record (TaskUpdate id) in
  await p := validated (check_data data) in
  await us := get_users in
  await ts := get_tasks in
  match ts !! id with
  | None => throw (PrismaError P2025)
  | Some t =>
      (* the foreign key is checked when the column is written *)
      let fk := match TaskPatch.userId p with
                | Some u => bool_decide (is_Some (us !! u))
                | None => true
                end in
      if fk then
        let t' := apply_patch env p t in
        await _ := set_tasks (<[id := t']> ts) in
        ret t'
      else throw (PrismaError P2003)
  end.

Definition delete (id : string) : Async Task.t :=
  await _ := record (TaskDelete id) in
  await ts := get_tasks in
  match ts !! id with
  | None => throw (PrismaError P2025)
  | Some t =>
      await _ := set_tasks (base.delete id ts) in
      ret t
  end.

End task.

End prisma.

(** ** Repositories (src/repositories) *)

Module TaskRepository.

Definition findById (id : string) : Async (option Task.t) :=
  prisma.task.findUnique id.

(** [filters] is optional: [None] is a call without it. *)
Definition findByUserId (userId : string) (filters : option TaskFilters.t)
  : Async (list Task.t) :=
  let status := match filters with
                | Some f => TaskFilters.status f
                | None => JUndefined
                end in
  prisma.task.findMany
    (TaskWhereInput.mk userId (spread_if (truthy status) status))
    desc.

Definition create (env : Env) (userId : string) (data : CreateTaskBody.t)
  : Async Task.t :=
  prisma.task.create env
    (TaskData.mk (CreateTaskBody.title data)
       (CreateTaskBody.description data)
       (js_or (CreateTaskBody.status data) (JStr (TaskStatus_name TODO)))
       (JStr userId)).

Definition update (env : Env) (id : string) (data : UpdateTaskBody.t)
  : Async Task.t :=
  prisma.task.update env id
    (TaskData.mk
       (spread_if (truthy (UpdateTaskBody.title data)) (UpdateTaskBody.title data))
       (spread_if (negb (bool_decide (UpdateTaskBody.description data = JUndefined)))
          (UpdateTaskBody.description data))
       (spread_if (truthy (UpdateTaskBody.status data)) (UpdateTaskBody.status data))
       JUndefined).

Definition archive (env : Env) (id : string) : Async Task.t :=
  prisma.task.update env id
    (TaskData.mk JUndefined JUndefined (JStr (TaskStatus_name ARCHIVED)) JUndefined).

Definition delete (id : string) : Async Task.t :=
  prisma.task.delete id.

End TaskRepository.

Module UserRepository.

Definition findById (id : string) : Async (option User.t) :=
  prisma.user.findUnique (WhereId id).

Definition findByEmail (email : string) : Async (option User.t) :=
  prisma.user.findUnique (WhereEmail email).

Definition create (env : Env) (data : CreateUserBody.t) : Async User.t :=
  prisma.user.create env
    (CreateUserBody.mk (CreateUserBody.email data) (CreateUserBody.name data)).

End UserRepository.

(** ** Services (src/services) *)

Module TaskService.

Definition getTasks (userId : string) (filters : option TaskFilters.t)
  : Async (list Task.t) :=
  TaskRepository.findByUserId userId filters.

Definition getTaskById (taskId userId : string) : Async Task.t :=
  await task := TaskRepository.findById taskId in
  match task with
  | None => throw (NotFoundError "Task")
  | Some task =>
      if negb (String.eqb (Task.userId task) userId)
      then throw (ForbiddenError "You do not have access to this task")
      else ret task
  end.

Definition createTask (env : Env) (userId : string) (data : CreateTaskBody.t)
  : Async Task.t :=
  TaskRepository.create env userId data.

Definition updateTask (env : Env) (taskId userId : string)
    (data : UpdateTaskBody.t) : Async Task.t :=
  await task := TaskRepository.findById taskId in
  match task with
  | None => throw (NotFoundError "Task")
  | Some task =>
      if negb (String.eqb (Task.userId task) userId)
      then throw (ForbiddenError "You do not have access to this task")
      else TaskRepository.update env taskId data
  end.

Definition deleteTask (taskId userId : string) : Async unit :=
  await task := TaskRepository.findById taskId in
  match task with
  | None => throw (NotFoundError "Task")
  | Some task =>
      if negb (String.eqb (Task.userId task) userId)
      then throw (ForbiddenError "You do not have access to this task")
      else await _ := TaskRepository.delete taskId in ret tt
  end.

Definition archiveTask (env : Env) (taskId userId : string) : Async Task.t :=
  await task := TaskRepository.findById taskId in
  match task with
  | None => throw (NotFoundError "Task")
  | Some task =>
      if negb (String.eqb (Task.userId task) userId)
      then throw (ForbiddenError "You do not have access to this task")
      else TaskRepository.archive env taskId
  end.

End TaskService.

Module UserService.

Definition getUserById (userId : string) : Async User.t :=
  await user := UserRepository.findById userId in
  match user with
  | None => throw (NotFoundError "User")
  | Some user => ret user
  end.

Definition createUser (env : Env) (data : CreateUserBody.t) : Async User.t :=
  await existingUser := UserRepository.findByEmail (CreateUserBody.email data) in
  match existingUser with
  | Some _ => throw (ConflictError "Email already in use")
  | None => UserRepository.create env data
  end.

End UserService.

(** ** Identifier patterns *)

Definition in_range (lo hi c : ascii) : bool :=
  (nat_of_ascii lo <=? nat_of_ascii c)%nat && (nat_of_ascii c <=? nat_of_ascii hi)%nat.

(** [[0-9a-f]] *)
Definition hex_lower (c : ascii) : bool :=
  in_range "0" "9" c || in_range "a" "f" c.

(** [[0-9a-f]] under the [i] flag *)
Definition hex_any_case (c : ascii) : bool :=
  hex_lower c || in_range "A" "F" c.

(** [cls{n}]: exactly [n] characters of the class, then the rest. *)
Fixpoint repeat_class (cls : ascii → bool) (n : nat) (s : string) : option string :=
  match n with
  | O => Some s
  | S n' => match s with
            | String c s' => if cls c then repeat_class cls n' s' else None
            | EmptyString => None
            end
  end.

Definition literal (c : ascii) (s : string) : option string :=
  match s with
  | String c' s' => if Ascii.eqb c c' then Some s' else None
  | EmptyString => None
  end.

(** The pieces of the two patterns: a class repeated a fixed number of
    times, or one literal character. *)
Inductive atom : Type :=
| Class (n : nat)
| Lit (c : ascii).

(** [^ atoms $]: the atoms in sequence, then the end of the input. *)
Fixpoint match_atoms (cls : ascii → bool) (p : list atom) (s : string) : bool :=
  match p with
  | [] => if s is EmptyString then true else false
  | Class n :: p' =>
      match repeat_class cls n s with
      | Some s' => match_atoms cls p' s'
      | None => false
      end
  | Lit c :: p' =>
      match literal c s with
      | Some s' => match_atoms cls p' s'
      | None => false
      end
  end.

(** [^cls{8}-cls{4}-cls{4}-cls{4}-cls{12}$] *)
Definition uuid_shape (cls : ascii → bool) (s : string) : bool :=
  match_atoms cls
    [Class 8; Lit "-"; Class 4; Lit "-"; Class 4; Lit "-"; Class 4; Lit "-"; Class 12]
    s.

(** [UUID_REGEX.test(s)] of the authorization middleware. *)
Definition UUID_REGEX (s : string) : bool := uuid_shape hex_any_case s.

(** The [pattern] of the [id] parameter in the route schemas, which has
    no [i] flag. *)
Definition id_pattern (s : string) : bool := uuid_shape hex_lower s.

(** ** Requests and the authorization middleware (src/middlewares/auth.ts) *)

Module Request.
Record t : Type := mk {
  headers : gmap string string;
  query : gmap string string;
  params_id : string;             (* the [:id] segment of the path *)
  userId : option string;         (* AuthenticatedRequest.userId *)
}.
Definition set_userId (u : string) (r : t) : t :=
  mk (headers r) (query r) (params_id r) (Some u).
End Request.

Definition missing_identifier : Error :=
  UnauthorizedError
    "Missing user identifier. Provide x-user-id header or userId query parameter.".

Definition authMiddleware (request : Request.t) : Async Request.t :=
  let userId := Request.headers request !! "x-user-id" in
  let userId := if falsy userId then Request.query request !! "userId" else userId in
  if falsy userId then
    throw missing_identifier
  else
    let userId := default "" userId in
    if negb (UUID_REGEX userId) then
      throw (UnauthorizedError "Invalid user identifier format.")
    else
      await user := prisma.user.findUnique (WhereId userId) in
      match user with
      | None => throw (UnauthorizedError "User not found.")
      | Some _ => ret (Request.set_userId userId request)
      end.

(** ** Replies, the error handler and the archive route *)

Record Config : Type := mkConfig { isProd : bool; isDev : bool }.

Inductive Payload : Type :=
| Success (data : Task.t)
| Failure (code message : string) (stack : bool).

Record Reply : Type := mkReply { statusCode : Z; payload : Payload }.

(** A Prisma failure is an [Error] without [statusCode]; its message is
    stood for by its code. *)
Definition PrismaFailure_message (f : PrismaFailure) : string :=
  match f with
  | P2002 => "P2002"
  | P2003 => "P2003"
  | P2025 => "P2025"
  | PrismaClientValidationError => "PrismaClientValidationError"
  end.

(** [error.statusCode || 500] *)
Definition statusCode_or_500 (statusCode : option Z) : Z :=
  match statusCode with
  | Some c => if c =? 0 then 500 else c
  | None => 500
  end.

(** [error.message || 'Internal server error'] *)
Definition message_or_default (message : string) : string :=
  if String.eqb message "" then "Internal server error" else message.

Definition errorHandler (config : Config) (error : Error) : Reply :=
  match error with
  | AppError statusCode code message =>
      mkReply statusCode (Failure code message (isDev config))
  | FastifyValidation =>
      mkReply 400 (Failure "VALIDATION_ERROR" "Validation failed" false)
  | PrismaError f =>
      mkReply 500
        (Failure "INTERNAL_ERROR"
           (if isProd config then "Internal server error"
            else PrismaFailure_message f)
           (isDev config))
  | GenericError statusCode message =>
      mkReply (statusCode_or_500 statusCode)
        (Failure "INTERNAL_ERROR"
           (if isProd config then "Internal server error"
            else message_or_default message)
           (isDev config))
  end.

(** A stage of the framework that runs before the route's own: the
    [onRequest] hook of the rate limiter registered on every route
    ([max] requests per [timeWindow] and client) and, for a method that
    may carry a body, the content-type parser.  Both belong to the
    framework and its plugin; what they decide for a request is an
    input here.  They let the request through or throw, and never
    touch the store. *)
Definition Stage : Type := Request.t → Result unit.

Definition run_stage (stage : Stage) (request : Request.t) : Async unit :=
  λ db, (stage request, db).

(** [archiveTaskSchema]: [params.id] is required and matches the
    pattern. *)
Definition archiveTaskSchema (request : Request.t) : Async unit :=
  if id_pattern (Request.params_id request) then ret tt
  else throw FastifyValidation.

Module taskRoutes.

(** The life cycle of a request on a route that may carry a body: the
    [onRequest] hook of the rate limiter, the content-type parser,
    validation against the schema, the [preHandler], the handler;
    whatever is thrown goes to the error handler. *)
Definition route (config : Config)
    (rateLimit parser : Stage)
    (schema : Request.t → Async unit)
    (preHandler : Request.t → Async Request.t)
    (handler : Request.t → Async Reply)
    (request : Request.t) (db : Db) : Reply * Db :=
  match (await _ := run_stage rateLimit request in
         await _ := run_stage parser request in
         await _ := schema request in
         await request := preHandler request in
         handler request) db with
  | (Ok reply, db') => (reply, db')
  | (Throw e, db') => (errorHandler config e, db')
  end.

(** A guarded operation of the task service called with [undefined] for
    [userId]: the lookup is the same, and [task.userId !== undefined]
    holds of every stored task. *)
Definition guarded_without_caller {A} (taskId : string) : Async A :=
  await task := TaskRepository.findById taskId in
  match task with
  | None => throw (NotFoundError "Task")
  | Some _ => throw (ForbiddenError "You do not have access to this task")
  end.

(** [POST /:id/archive] *)
Definition archive_handler (env : Env) (request : Request.t) : Async Reply :=
  let id := Request.params_id request in
  match Request.userId request with
  | Some userId =>
      await task := TaskService.archiveTask env id userId in
      ret (mkReply 200 (Success task))
  | None =>
      (* [request.userId!] is erased when the code runs: the service is
         called with [undefined] *)
      guarded_without_caller id
  end.

Definition archive (config : Config) (rateLimit parser : Stage) (env : Env)
  : Request.t → Db → Reply * Db :=
  route config rateLimit parser archiveTaskSchema authMiddleware (archive_handler env).

End taskRoutes.

(** ** A small store used to run the code on concrete requests *)

Module Fixture.

Definition alice_id : string := "11111111-1111-4111-8111-111111111111".
Definition bob_id : string := "22222222-2222-4222-8222-222222222222".
Definition t1_id : string := "aaaaaaaa-aaaa-4aaa-8aaa-aaaaaaaaaaaa".
Definition t2_id : string := "bbbbbbbb-bbbb-4bbb-8bbb-bbbbbbbbbbbb".
Definition t3_id : string := "cccccccc-cccc-4ccc-8ccc-cccccccccccc".
Definition free_id : string := "dddddddd-dddd-4ddd-8ddd-dddddddddddd".

Definition alice : User.t := User.mk alice_id "alice@example.com" "Alice" 1 1.
Definition bob : User.t := User.mk bob_id "bob@example.com" "Bob" 2 2.

Definition t1 : Task.t := Task.mk t1_id "T1" (Some "first") TODO alice_id 10 10.
Definition t2 : Task.t := Task.mk t2_id "T2" None ARCHIVED alice_id 20 25.
Definition t3 : Task.t := Task.mk t3_id "T1" None DONE bob_id 30 30.

Definition db : Db :=
  mkDb (<[alice_id := alice]> (<[bob_id := bob]> ∅))
       (<[t1_id := t1]> (<[t2_id := t2]> (<[t3_id := t3]> ∅)))
       [].

Definition env : Env := mkEnv free_id 99.

Definition config : Config := mkConfig false true.

Definition request (header query : option string) (id : string) : Request.t :=
  Request.mk
    (match header with Some h => <["x-user-id" := h]> ∅ | None => ∅ end)
    (match query with Some q => <["userId" := q]> ∅ | None => ∅ end)
    id None.

(** A request whose header is present and empty, the identifier being
    in the query string. *)
Definition empty_header_request : Request.t :=
  request (Some "") (Some alice_id) t1_id.

(** Bob asking to archive a task of Alice. *)
Definition foreign_archive_request : Request.t :=
  request (Some bob_id) None t1_id.

(** A stage that lets every request through. *)
Definition pass : Stage := λ _, Ok tt.

(** A rate limiter that has seen too many requests, and a parser that
    does not know the content type. *)
Definition too_many : Stage :=
  λ _, Throw (GenericError (Some 429) "Rate limit exceeded, retry in 1 minute").

Definition unsupported : Stage :=
  λ _, Throw (GenericError (Some 415) "Unsupported Media Type: application/xml").

End Fixture.

(** ** Vocabulary of the statements *)

Definition logged (q : Query) (db : Db) : Db :=
  mkDb (users db) (tasks db) (queries db ++ [q]).

(** [m] run from [db] throws [e] and leaves both tables as they were. *)
Definition throws {A} (m : Async A) (db : Db) (e : Error) : Prop :=
  (m db).1 = Throw e ∧ users (m db).2 = users db ∧ tasks (m db).2 = tasks db.

(** A [status] property of a well-typed body or filter: missing, or the
    name of an enum value. *)
Definition status_field (v : jsval) : Prop :=
  v = JUndefined ∨ ∃ st, v = JStr (TaskStatus_name st).

(** A [string] property that may be missing. *)
Definition optional_string (v : jsval) : Prop :=
  v = JUndefined ∨ ∃ s, v = JStr s.

(** A [status] property the repository can take: falsy, or the name of
    an enum value. *)
Definition status_or_falsy (v : jsval) : Prop :=
  truthy v = false ∨ ∃ st, v = JStr (TaskStatus_name st).

(** The row [TaskRepository.update] gives for the body [data] over the
    row [task], column by column; [updatedAt] moves when the body has a
    column to write. *)
Definition updated (env : Env) (data : UpdateTaskBody.t) (task : Task.t) : Task.t :=
  Task.mk (Task.id task)
    (match UpdateTaskBody.title data with
     | JStr s => if String.eqb s "" then Task.title task else s
     | _ => Task.title task
     end)
    (match UpdateTaskBody.description data with
     | JUndefined => Task.description task
     | JNull => None
     | JStr s => Some s
     end)
    (match UpdateTaskBody.status data with
     | JStr s => default (Task.status task) (TaskStatus_parse s)
     | _ => Task.status task
     end)
    (Task.userId task)
    (Task.createdAt task)
    (if truthy (UpdateTaskBody.title data)
        || negb (bool_decide (UpdateTaskBody.description data = JUndefined))
        || truthy (UpdateTaskBody.status data)
     then now env else Task.updatedAt task).

(** The status a well-typed filter asks for, if any. *)
Definition filter_status (filters : option TaskFilters.t) : option TaskStatus :=
  match filters with
  | Some f => match TaskFilters.status f with
              | JStr s => TaskStatus_parse s
              | _ => None
              end
  | None => None
  end.

(** The identifier format in words: five groups of 8, 4, 4, 4 and 12
    hexadecimal digits, of either case, separated by hyphens. *)
Definition hex_digit (c : ascii) : Prop :=
  c ∈ list_ascii_of_string "0123456789abcdefABCDEF".

Definition hex_group (n : nat) (g : string) : Prop :=
  String.length g = n ∧ ∀ c, c ∈ list_ascii_of_string g → hex_digit c.

Definition hyphenated_hex (s : string) : Prop :=
  ∃ a b c d e : string,
    s = (a ++ "-" ++ b ++ "-" ++ c ++ "-" ++ d ++ "-" ++ e)%string ∧
    hex_group 8 a ∧ hex_group 4 b ∧ hex_group 4 c ∧ hex_group 4 d ∧ hex_group 12 e.

(** The identifier a request supplies: the [x-user-id] header when it is
    present and not empty, the [userId] query parameter otherwise. *)
Definition supplied (request : Request.t) : option string :=
  match Request.headers request !! "x-user-id" with
  | Some h => if String.eqb h "" then Request.query request !! "userId" else Some h
  | None => Request.query request !! "userId"
  end.

(** A request is authenticated as [v] when it supplies [v], [v] has the
    format of an identifier and a user with that identifier is stored. *)
Definition authenticated (request : Request.t) (db : Db) (v : string) : Prop :=
  supplied request = Some v ∧ hyphenated_hex v ∧ is_Some (users db !! v).

(** ** Further vocabulary *)

(** Both tables of [db'] are those of [db]. *)
Definition same_tables (db db' : Db) : Prop :=
  users db' = users db ∧ tasks db' = tasks db.

(** Every run of a guarded write either throws with the tables as they
    were, or rewrites the row of the caller's task [taskId] with a patch
    that has no owner column. *)
Definition guarded_write (env : Env) (taskId userId : string) (db : Db)
    (run : Result Task.t * Db) : Prop :=
  (∃ e, run.1 = Throw e ∧ same_tables db run.2) ∨
  (∃ task p,
     tasks db !! taskId = Some task ∧ Task.userId task = userId ∧
     TaskPatch.userId p = None ∧
     run.1 = Ok (prisma.task.apply_patch env p task) ∧
     users run.2 = users db ∧
     tasks run.2 = <[taskId := prisma.task.apply_patch env p task]> (tasks db)).

(** ** The other routes (src/routes) *)

(** What a route sends: the status code and the data of
    [{ success: true, data }] when the handler returns, the reply of the
    error handler when something is thrown. *)
Inductive Outcome (A : Type) : Type :=
| Sent (statusCode : Z) (data : A)
| Failed (reply : Reply).
Arguments Sent {A} statusCode data.
Arguments Failed {A} reply.

Definition Outcome_code {A} (o : Outcome A) : Z :=
  match o with
  | Sent statusCode _ => statusCode
  | Failed reply => statusCode reply
  end.

(** [getTaskSchema], [deleteTaskSchema] and [getUserSchema]: [params.id]
    is required and matches the pattern. *)
Definition getTaskSchema (request : Request.t) : Async unit :=
  if id_pattern (Request.params_id request) then ret tt
  else throw FastifyValidation.

Definition deleteTaskSchema (request : Request.t) : Async unit :=
  if id_pattern (Request.params_id request) then ret tt
  else throw FastifyValidation.


(** [listTasksSchema]: [querystring.status], when given, is one of the
    four names. *)
Definition listTasksSchema (request : Request.t) : Async unit :=
  match Request.query request !! "status" with
  | Some s =>
      if bool_decide (s ∈ ["TODO"; "IN_PROGRESS"; "DONE"; "ARCHIVED"]) then ret tt
      else throw FastifyValidation
  | None => ret tt
  end.

(** [getTasks(undefined, filters)]: a [where] whose [userId] is
    [undefined] has no condition on the owner. *)
Definition has_status (st : option TaskStatus) (t : Task.t) : Prop :=
  match st with Some s => Task.status t = s | None => True end.

#[global] Instance has_status_dec st t : Decision (has_status st t).
Proof. unfold has_status; destruct st; apply _. Defined.

Definition getTasks_without_caller (filters : TaskFilters.t) : Async (list Task.t) :=
  let status := TaskFilters.status filters in
  await _ := record TaskFindManyAnyOwner in
  await st := validated (check_status (spread_if (truthy status) status)) in
  await ts := get_tasks in
  ret (merge_sort (createdAt_order desc) (filter (has_status st) (rows ts))).

Module Routes.

(** The life cycle of a request from validation on, as in
    [taskRoutes.route], for a handler that sends [data] with a status
    code. *)
Definition serve {A} (config : Config)
    (schema : Request.t → Async unit)
    (preHandler : Request.t → Async Request.t)
    (handler : Request.t → Async (Z * A))
    (request : Request.t) (db : Db) : Outcome A * Db :=
  match (await _ := schema request in
         await request := preHandler request in
         handler request) db with
  | (Ok (statusCode, data), db') => (Sent statusCode data, db')
  | (Throw e, db') => (Failed (errorHandler config e), db')
  end.

(** A stage that runs before the rest of the life cycle: the rest runs
    when the stage lets the request through, and what the stage throws
    goes to the error handler. *)
Definition behind {A} (config : Config) (stage : Stage)
    (rest : Request.t → Db → Outcome A * Db)
    (request : Request.t) (db : Db) : Outcome A * Db :=
  match stage request with
  | Ok _ => rest request db
  | Throw e => (Failed (errorHandler config e), db)
  end.


(** [GET /] of the tasks *)
Definition list_handler (request : Request.t) : Async (Z * list Task.t) :=
  let filters := TaskFilters.mk (match Request.query request !! "status" with
                                 | Some s => JStr s
                                 | None => JUndefined
                                 end) in
  await tasks := match Request.userId request with
                 | Some userId => TaskService.getTasks userId (Some filters)
                 | None => getTasks_without_caller filters   (* [request.userId!] *)
                 end in
  ret (200, tasks).

(** A [GET] request goes from the rate limiter to validation: its body,
    if any, is not parsed. *)
Definition list_tasks (config : Config) (rateLimit : Stage)
  : Request.t → Db → Outcome (list Task.t) * Db :=
  behind config rateLimit (serve config listTasksSchema authMiddleware list_handler).

(** [GET /:id] of the tasks *)
Definition get_handler (request : Request.t) : Async (Z * Task.t) :=
  let id := Request.params_id request in
  await task := match Request.userId request with
                | Some userId => TaskService.getTaskById id userId
                | None => taskRoutes.guarded_without_caller id   (* [request.userId!] *)
                end in
  ret (200, task).

Definition get_task (config : Config) (rateLimit : Stage)
  : Request.t → Db → Outcome Task.t * Db :=
  behind config rateLimit (serve config getTaskSchema authMiddleware get_handler).

(** [DELETE /:id] of the tasks *)
Definition delete_handler (request : Request.t) : Async (Z * unit) :=
  let id := Request.params_id request in
  await _ := match Request.userId request with
             | Some userId => TaskService.deleteTask id userId
             | None => taskRoutes.guarded_without_caller id   (* [request.userId!] *)
             end in
  ret (204, tt).

(** A [DELETE] request may carry a body: the content-type parser runs
    between the rate limiter and validation. *)
Definition delete_task (config : Config) (rateLimit parser : Stage)
  : Request.t → Db → Outcome unit * Db :=
  behind config rateLimit
    (behind config parser
       (serve config deleteTaskSchema authMiddleware delete_handler)).



End Routes.

(** ** Configuration (src/config/index.ts) *)

Module config.

(** [process.env.NODE_ENV || 'development'] *)
Definition nodeEnv (NODE_ENV : option string) : string :=
  if falsy NODE_ENV then "development" else default "" NODE_ENV.

(** [process.env.DATABASE_URL || ''] *)
Definition databaseUrl (DATABASE_URL : option string) : string :=
  if falsy DATABASE_URL then "" else default "" DATABASE_URL.

(** [process.env.LOG_LEVEL || 'info'] *)
Definition logLevel (LOG_LEVEL : option string) : string :=
  if falsy LOG_LEVEL then "info" else default "" LOG_LEVEL.

(** [process.env.NODE_ENV === 'production'] *)
Definition isProd (NODE_ENV : option string) : bool :=
  bool_decide (NODE_ENV = Some "production").

(** [process.env.NODE_ENV === 'development'] *)
Definition isDev (NODE_ENV : option string) : bool :=
  bool_decide (NODE_ENV = Some "development").

(** The two flags the error handler reads. *)
Definition load (NODE_ENV : option string) : Config :=
  mkConfig (isProd NODE_ENV) (isDev NODE_ENV).

End config.

(** Whether a reply carries a stack trace. *)
Definition Reply_stack (reply : Reply) : bool :=
  match payload reply with
  | Failure _ _ stack => stack
  | Success _ => false
  end.

Definition Reply_message (reply : Reply) : option string :=
  match payload reply with
  | Failure _ message _ => Some message
  | Success _ => None
  end.

(** * Properties *)

(** ** Running the monad *)

Lemma bind_Ok {A B} (m : Async A) (k : A → Async B) db a db' :
  m db = (Ok a, db') → bind m k db = k a db'.
Proof. intros H. unfold bind. by rewrite H. Qed.

Lemma bind_Throw {A B} (m : Async A) (k : A → Async B) db e db' :
  m db = (Throw e, db') → bind m k db = (Throw e, db').
Proof. intros H. unfold bind. by rewrite H. Qed.

Lemma findById_run id db :
  TaskRepository.findById id db = (Ok (tasks db !! id), logged (TaskFindUnique id) db).
Proof. reflexivity. Qed.

Lemma negb_eqb_true (a b : string) : negb (String.eqb a b) = true ↔ a ≠ b.
Proof. rewrite negb_true_iff. apply String.eqb_neq. Qed.

Lemma negb_eqb_false (a b : string) : negb (String.eqb a b) = false ↔ a = b.
Proof. rewrite negb_false_iff. apply String.eqb_eq. Qed.

(** ** Existence and ownership checks of the task service *)

Ltac guarded_ops :=
  unfold throws, TaskService.getTaskById, TaskService.updateTask,
    TaskService.deleteTask, TaskService.archiveTask, bind;
  rewrite ?findById_run.

(** C1: [getTaskById], [updateTask], [deleteTask] and [archiveTask]
    throw NotFound when no task has the given id, and Forbidden when the
    task exists and belongs to another user.  The lookup comes first: on
    a missing id the caller gets NotFound whoever they are.  Neither
    failure writes to the tables. *)
Theorem existence_check_precedes_ownership_check
    (env : Env) (taskId userId : string) (data : UpdateTaskBody.t) (db : Db) :
  (tasks db !! taskId = None →
     let e := NotFoundError "Task" in
     throws (TaskService.getTaskById taskId userId) db e ∧
     throws (TaskService.updateTask env taskId userId data) db e ∧
     throws (TaskService.deleteTask taskId userId) db e ∧
     throws (TaskService.archiveTask env taskId userId) db e) ∧
  (∀ task, tasks db !! taskId = Some task → Task.userId task ≠ userId →
     let e := ForbiddenError "You do not have access to this task" in
     throws (TaskService.getTaskById taskId userId) db e ∧
     throws (TaskService.updateTask env taskId userId data) db e ∧
     throws (TaskService.deleteTask taskId userId) db e ∧
     throws (TaskService.archiveTask env taskId userId) db e).
Proof.
  split.
  - intros Hnone e. guarded_ops. rewrite Hnone. done.
  - intros task Hsome Hne e. apply negb_eqb_true in Hne.
    guarded_ops. rewrite Hsome, Hne. done.
Qed.

Lemma existence_check_precedes_ownership_check_witness :
  (let e := NotFoundError "Task" in
   throws (TaskService.getTaskById Fixture.free_id Fixture.bob_id) Fixture.db e ∧
   throws (TaskService.archiveTask Fixture.env Fixture.free_id Fixture.bob_id) Fixture.db e) ∧
  (let e := ForbiddenError "You do not have access to this task" in
   throws (TaskService.getTaskById Fixture.t1_id Fixture.bob_id) Fixture.db e ∧
   throws (TaskService.deleteTask Fixture.t1_id Fixture.bob_id) Fixture.db e).
Proof.
  pose proof (existence_check_precedes_ownership_check Fixture.env
                Fixture.free_id Fixture.bob_id
                (UpdateTaskBody.mk JUndefined JUndefined JUndefined) Fixture.db) as [Hm _].
  pose proof (existence_check_precedes_ownership_check Fixture.env
                Fixture.t1_id Fixture.bob_id
                (UpdateTaskBody.mk JUndefined JUndefined JUndefined) Fixture.db) as [_ Hf].
  split.
  - destruct Hm as (H1 & _ & _ & H4); [vm_compute; reflexivity | by split].
  - destruct (Hf Fixture.t1) as (H1 & _ & H3 & _);
      [vm_compute; reflexivity | vm_compute; discriminate | by split].
Defined.

(** ** Writes of the Prisma client *)

Lemma task_update_run env id d p t db :
  check_data d = Some p → TaskPatch.userId p = None →
  tasks db !! id = Some t →
  prisma.task.update env id d db =
    (Ok (prisma.task.apply_patch env p t),
     mkDb (users db) (<[id := prisma.task.apply_patch env p t]> (tasks db))
       (queries db ++ [TaskUpdate id])).
Proof.
  intros Hd Hu Ht. unfold prisma.task.update, bind, record, validated.
  rewrite Hd. simpl. rewrite Ht, Hu. reflexivity.
Qed.

Lemma task_update_invalid env id d db :
  check_data d = None →
  prisma.task.update env id d db =
    (Throw (PrismaError PrismaClientValidationError), logged (TaskUpdate id) db).
Proof.
  intros Hd. unfold prisma.task.update, bind, record, validated.
  rewrite Hd. reflexivity.
Qed.

(** ** Archiving *)

Lemma archiveTask_run env taskId userId db task :
  tasks db !! taskId = Some task → Task.userId task = userId →
  let task' := Task.mk (Task.id task) (Task.title task) (Task.description task)
                 ARCHIVED (Task.userId task) (Task.createdAt task) (now env) in
  TaskService.archiveTask env taskId userId db =
    (Ok task',
     mkDb (users db) (<[taskId := task']> (tasks db))
       (queries db ++ [TaskFindUnique taskId; TaskUpdate taskId])).
Proof.
  intros Hsome Hown task'. apply negb_eqb_false in Hown.
  unfold TaskService.archiveTask, bind. rewrite findById_run, Hsome, Hown.
  unfold TaskRepository.archive.
  erewrite task_update_run; [| reflexivity | reflexivity | exact Hsome].
  simpl. by rewrite <- app_assoc.
Qed.

(** C3: archiving a task of the caller succeeds whatever the status of
    the task was, [ARCHIVED] included; the task returned, which is the
    stored one, has status [ARCHIVED]. *)
Theorem archiveTask_sets_ARCHIVED
    (env : Env) (taskId userId : string) (db : Db) (task : Task.t) :
  tasks db !! taskId = Some task →
  Task.userId task = userId →
  ∃ task' db',
    TaskService.archiveTask env taskId userId db = (Ok task', db') ∧
    Task.status task' = ARCHIVED ∧
    tasks db' !! taskId = Some task'.
Proof.
  intros Hsome Hown. eexists _, _. split.
  - by apply archiveTask_run.
  - simpl. split; [done | apply lookup_insert_eq].
Qed.

Lemma archiveTask_sets_ARCHIVED_witness :
  Task.status Fixture.t2 = ARCHIVED ∧
  ∃ task' db',
    TaskService.archiveTask Fixture.env Fixture.t2_id Fixture.alice_id Fixture.db
      = (Ok task', db') ∧
    Task.status task' = ARCHIVED ∧
    tasks db' !! Fixture.t2_id = Some task'.
Proof.
  split; [reflexivity |].
  apply (archiveTask_sets_ARCHIVED Fixture.env Fixture.t2_id Fixture.alice_id
           Fixture.db Fixture.t2); vm_compute; reflexivity.
Defined.

(** C9: archiving a task of the caller leaves its title, description,
    owner, identifier and creation time as they were; no other task and
    no user is touched. *)
Theorem archiveTask_changes_status_only
    (env : Env) (taskId userId : string) (db : Db) (task : Task.t) :
  tasks db !! taskId = Some task →
  Task.userId task = userId →
  ∃ task' db',
    TaskService.archiveTask env taskId userId db = (Ok task', db') ∧
    tasks db' !! taskId = Some task' ∧
    Task.title task' = Task.title task ∧
    Task.description task' = Task.description task ∧
    Task.userId task' = Task.userId task ∧
    Task.id task' = Task.id task ∧
    Task.createdAt task' = Task.createdAt task ∧
    (∀ other, other ≠ taskId → tasks db' !! other = tasks db !! other) ∧
    users db' = users db.
Proof.
  intros Hsome Hown. eexists _, _. split.
  - by apply archiveTask_run.
  - simpl. split; [apply lookup_insert_eq |].
    repeat split. intros other Hne. by apply lookup_insert_ne.
Qed.

Lemma archiveTask_changes_status_only_witness :
  ∃ task' db',
    TaskService.archiveTask Fixture.env Fixture.t1_id Fixture.alice_id Fixture.db
      = (Ok task', db') ∧
    tasks db' !! Fixture.t1_id = Some task' ∧
    Task.title task' = "T1" ∧
    Task.description task' = Some "first" ∧
    Task.userId task' = Fixture.alice_id ∧
    Task.id task' = Fixture.t1_id ∧
    Task.createdAt task' = 10 ∧
    (∀ other, other ≠ Fixture.t1_id →
       tasks db' !! other = tasks Fixture.db !! other) ∧
    users db' = users Fixture.db.
Proof.
  apply (archiveTask_changes_status_only Fixture.env Fixture.t1_id
           Fixture.alice_id Fixture.db Fixture.t1); vm_compute; reflexivity.
Defined.

(** ** Creating a task *)

Lemma TaskStatus_parse_name st : TaskStatus_parse (TaskStatus_name st) = Some st.
Proof. by destruct st. Qed.

Lemma status_field_or_TODO v :
  status_field v →
  check_status (js_or v (JStr (TaskStatus_name TODO))) =
    Some (Some (match v with
                | JStr s => default TODO (TaskStatus_parse s)
                | _ => TODO
                end)).
Proof.
  intros [-> | [st ->]]; [reflexivity |].
  rewrite TaskStatus_parse_name. by destruct st.
Qed.

Lemma createTask_Ok env userId data db task db' :
  TaskService.createTask env userId data db = (Ok task, db') →
  ∃ p title,
    check_data (TaskData.mk (CreateTaskBody.title data)
                  (CreateTaskBody.description data)
                  (js_or (CreateTaskBody.status data) (JStr (TaskStatus_name TODO)))
                  (JStr userId)) = Some p ∧
    task = Task.mk (uuid env) title (default None (TaskPatch.description p))
             (default TODO (TaskPatch.status p)) userId (now env) (now env) ∧
    tasks db' = <[uuid env := task]> (tasks db).
Proof.
  unfold TaskService.createTask, TaskRepository.create, prisma.task.create,
    bind, record, validated.
  destruct (check_data _) as [p|] eqn:Hp; simpl; [| discriminate].
  assert (TaskPatch.userId p = Some userId) as Hu.
  { unfold check_data in Hp. simpl in Hp.
    repeat case_match; simplify_eq; done. }
  rewrite Hu. destruct (TaskPatch.title p) as [title|]; simpl; [| discriminate].
  destruct (tasks db !! uuid env); simpl; [discriminate |].
  destruct (users db !! userId); simpl; [| discriminate].
  intros [= <- <-]. eexists p, title. done.
Qed.

(** C4: a task that has been created belongs to the [userId] given to
    [createTask], and has status [TODO] when the body has no [status].
    The creation succeeds for any title, whatever the titles of the
    tasks already stored: it asks for a string title, a well-typed
    status, an existing owner and an unused key, nothing else. *)
Theorem createTask_owner_and_default_status
    (env : Env) (userId : string) (data : CreateTaskBody.t) (db : Db) :
  (∀ task db',
     TaskService.createTask env userId data db = (Ok task, db') →
     Task.userId task = userId ∧
     (CreateTaskBody.status data = JUndefined → Task.status task = TODO)) ∧
  (∀ title,
     CreateTaskBody.title data = JStr title →
     status_field (CreateTaskBody.status data) →
     is_Some (users db !! userId) →
     tasks db !! uuid env = None →
     ∃ task db',
       TaskService.createTask env userId data db = (Ok task, db') ∧
       Task.title task = title ∧
       Task.userId task = userId ∧
       tasks db' = <[uuid env := task]> (tasks db)).
Proof.
  split.
  - intros task db' Hrun.
    apply createTask_Ok in Hrun as (p & title & Hp & -> & _). simpl.
    split; [done |]. intros Hst. rewrite Hst in Hp.
    unfold check_data in Hp. simpl in Hp.
    repeat case_match; simplify_eq; done.
  - intros title Htitle Hst [u Hu] Hfree.
    unfold TaskService.createTask, TaskRepository.create, prisma.task.create,
      bind, record, validated, check_data.
    cbn [TaskData.title TaskData.description TaskData.status TaskData.userId].
    rewrite Htitle, (status_field_or_TODO _ Hst). simpl.
    destruct (check_nullable _) as [de|] eqn:Hde; simpl.
    + rewrite Hfree, Hu. simpl. eexists _, _. done.
    + by destruct (CreateTaskBody.description data).
Qed.

Lemma createTask_owner_and_default_status_witness :
  (∃ other, tasks Fixture.db !! Fixture.t3_id = Some other ∧ Task.title other = "T1") ∧
  ∃ task db',
    TaskService.createTask Fixture.env Fixture.alice_id
      (CreateTaskBody.mk (JStr "T1") JUndefined JUndefined) Fixture.db = (Ok task, db') ∧
    Task.title task = "T1" ∧
    Task.userId task = Fixture.alice_id ∧
    Task.status task = TODO.
Proof.
  split; [exists Fixture.t3; vm_compute; done |].
  pose proof (createTask_owner_and_default_status Fixture.env Fixture.alice_id
                (CreateTaskBody.mk (JStr "T1") JUndefined JUndefined) Fixture.db)
    as [Hany Hgo].
  destruct (Hgo "T1") as (task & db' & Hrun & Htitle & Huser & _);
    [reflexivity | by left | by eexists; vm_compute | vm_compute; reflexivity |].
  exists task, db'. repeat split; try done.
  by apply (Hany task db' Hrun).
Defined.

(** ** Updating a task *)

Lemma truthy_JStr s : truthy (JStr s) = negb (String.eqb s "").
Proof. reflexivity. Qed.

Lemma check_string_spread v :
  check_string (spread_if (truthy v) v) =
    Some (match v with
          | JStr s => if String.eqb s "" then None else Some s
          | _ => None
          end).
Proof.
  destruct v as [| |s]; try done.
  unfold spread_if. rewrite truthy_JStr. by destruct (String.eqb s "").
Qed.

Lemma check_status_spread v :
  status_or_falsy v →
  check_status (spread_if (truthy v) v) =
    Some (match v with
          | JStr s => if String.eqb s "" then None else TaskStatus_parse s
          | _ => None
          end).
Proof.
  intros [Hf | [st ->]].
  - rewrite Hf. destruct v as [| |s]; try done.
    rewrite truthy_JStr, negb_false_iff in Hf. by rewrite Hf.
  - simpl. rewrite TaskStatus_parse_name. by destruct st.
Qed.

Lemma check_nullable_spread v :
  check_nullable (spread_if (negb (bool_decide (v = JUndefined))) v) = check_nullable v.
Proof. by destruct v. Qed.

Lemma update_data_checked data :
  status_or_falsy (UpdateTaskBody.status data) →
  ∃ p,
    check_data
      (TaskData.mk
         (spread_if (truthy (UpdateTaskBody.title data)) (UpdateTaskBody.title data))
         (spread_if (negb (bool_decide (UpdateTaskBody.description data = JUndefined)))
            (UpdateTaskBody.description data))
         (spread_if (truthy (UpdateTaskBody.status data)) (UpdateTaskBody.status data))
         JUndefined) = Some p ∧
    TaskPatch.userId p = None ∧
    ∀ env task, prisma.task.apply_patch env p task = updated env data task.
Proof.
  intros Hst. unfold check_data.
  cbn [TaskData.title TaskData.description TaskData.status TaskData.userId].
  rewrite check_string_spread, check_nullable_spread, (check_status_spread _ Hst).
  destruct (check_nullable _) as [de|] eqn:Hde;
    [| by destruct (UpdateTaskBody.description data)].
  eexists. split; [reflexivity |]. split; [reflexivity |].
  intros env task. unfold prisma.task.apply_patch, updated. simpl.
  f_equal.
  - destruct (UpdateTaskBody.title data) as [| |t]; try done.
    by destruct (String.eqb t "").
  - destruct (UpdateTaskBody.description data); simpl in Hde; by simplify_eq.
  - destruct (UpdateTaskBody.status data) as [| |s]; try done.
    destruct (String.eqb s "") eqn:Hs; [| done].
    apply String.eqb_eq in Hs as ->. done.
  - unfold prisma.task.patch_is_empty. simpl.
    assert (∀ s, UpdateTaskBody.status data = JStr s → String.eqb s "" = false →
                 is_Some (TaskStatus_parse s)) as Hparse.
    { intros s Hs Hne. destruct Hst as [Hf | [st Hst]].
      - rewrite Hs, truthy_JStr, Hne in Hf. done.
      - rewrite Hs in Hst. injection Hst as ->.
        rewrite TaskStatus_parse_name. by eexists. }
    destruct (UpdateTaskBody.title data) as [| |t];
      destruct (UpdateTaskBody.description data) as [| |d];
      simpl in Hde; simplify_eq; simpl;
      try (destruct (String.eqb t ""); simpl); try done;
      (destruct (UpdateTaskBody.status data) as [| |s]; simpl; [done | done |]);
      (destruct (String.eqb s "") eqn:Hs; simpl; [done |]);
      by destruct (Hparse s eq_refl Hs) as [st ->].
Qed.

Lemma TaskRepository_update_run env id data db task :
  tasks db !! id = Some task →
  status_or_falsy (UpdateTaskBody.status data) →
  TaskRepository.update env id data db =
    (Ok (updated env data task),
     mkDb (users db) (<[id := updated env data task]> (tasks db))
       (queries db ++ [TaskUpdate id])).
Proof.
  intros Hsome Hst.
  destruct (update_data_checked data Hst) as (p & Hp & Hu & Hrow).
  unfold TaskRepository.update.
  rewrite (task_update_run env id _ p task db Hp Hu Hsome).
  by rewrite Hrow.
Qed.

Lemma updateTask_run env taskId userId data db task :
  tasks db !! taskId = Some task → Task.userId task = userId →
  status_or_falsy (UpdateTaskBody.status data) →
  TaskService.updateTask env taskId userId data db =
    (Ok (updated env data task),
     mkDb (users db) (<[taskId := updated env data task]> (tasks db))
       (queries db ++ [TaskFindUnique taskId; TaskUpdate taskId])).
Proof.
  intros Hsome Hown Hst. apply negb_eqb_false in Hown.
  unfold TaskService.updateTask, bind. rewrite findById_run, Hsome, Hown.
  rewrite (TaskRepository_update_run env taskId data
             (logged (TaskFindUnique taskId) db) task Hsome Hst).
  simpl. by rewrite <- app_assoc.
Qed.

(** C5: updating a task of the caller succeeds and writes the columns
    the body provides: a missing [title], [description] or [status]
    leaves the stored value as it was, and so are the identifier, the
    owner and the creation time whatever the body holds.  A
    [description] of [null] or of the empty string is written (the
    stored description becomes [NULL], or empty), unlike a missing one. *)
Theorem updateTask_applies_present_fields
    (env : Env) (taskId userId : string) (data : UpdateTaskBody.t)
    (db : Db) (task : Task.t) :
  tasks db !! taskId = Some task →
  Task.userId task = userId →
  status_or_falsy (UpdateTaskBody.status data) →
  ∃ task' db',
    TaskService.updateTask env taskId userId data db = (Ok task', db') ∧
    tasks db' !! taskId = Some task' ∧
    (UpdateTaskBody.title data = JUndefined → Task.title task' = Task.title task) ∧
    (UpdateTaskBody.description data = JUndefined →
       Task.description task' = Task.description task) ∧
    (UpdateTaskBody.status data = JUndefined → Task.status task' = Task.status task) ∧
    (∀ s, UpdateTaskBody.title data = JStr s → s ≠ "" → Task.title task' = s) ∧
    (∀ st, UpdateTaskBody.status data = JStr (TaskStatus_name st) →
       Task.status task' = st) ∧
    (UpdateTaskBody.description data = JNull → Task.description task' = None) ∧
    (∀ s, UpdateTaskBody.description data = JStr s → Task.description task' = Some s) ∧
    Task.id task' = Task.id task ∧
    Task.userId task' = Task.userId task ∧
    Task.createdAt task' = Task.createdAt task.
Proof.
  intros Hsome Hown Hst. eexists _, _. split.
  - by apply updateTask_run.
  - simpl. split; [apply lookup_insert_eq |].
    repeat split.
    + by intros ->.
    + by intros ->.
    + by intros ->.
    + intros s -> Hs. apply String.eqb_neq in Hs. by rewrite Hs.
    + intros st ->. by rewrite TaskStatus_parse_name.
    + by intros ->.
    + by intros s ->.
Qed.

Lemma updateTask_applies_present_fields_witness :
  ∃ task' db',
    TaskService.updateTask Fixture.env Fixture.t1_id Fixture.alice_id
      (UpdateTaskBody.mk JUndefined (JStr "") JUndefined) Fixture.db = (Ok task', db') ∧
    Task.title task' = "T1" ∧
    Task.description Fixture.t1 = Some "first" ∧
    Task.description task' = Some "" ∧
    Task.status task' = TODO.
Proof.
  destruct (updateTask_applies_present_fields Fixture.env Fixture.t1_id
              Fixture.alice_id (UpdateTaskBody.mk JUndefined (JStr "") JUndefined)
              Fixture.db Fixture.t1)
    as (task' & db' & Hrun & _ & Ht & _ & Hs & _ & _ & _ & Hd & _);
    [vm_compute; reflexivity | vm_compute; reflexivity | by left |].
  exists task', db'. split; [exact Hrun |].
  split; [by apply Ht |]. split; [reflexivity |].
  split; [by apply Hd | by apply Hs].
Defined.

Lemma TaskStatus_parse_Some s st :
  TaskStatus_parse s = Some st → s = TaskStatus_name st.
Proof.
  unfold TaskStatus_parse.
  destruct (String.eqb s "TODO") eqn:H1;
    [apply String.eqb_eq in H1 as ->; by intros [= <-] |].
  destruct (String.eqb s "IN_PROGRESS") eqn:H2;
    [apply String.eqb_eq in H2 as ->; by intros [= <-] |].
  destruct (String.eqb s "DONE") eqn:H3;
    [apply String.eqb_eq in H3 as ->; by intros [= <-] |].
  destruct (String.eqb s "ARCHIVED") eqn:H4;
    [apply String.eqb_eq in H4 as ->; by intros [= <-] | done].
Qed.

(** Whatever the body holds, the stored row keeps every column the
    body does not write: when the status of the body is not one the
    client takes, the call throws and the row is as it was. *)
Lemma TaskRepository_update_row env id data db task :
  tasks db !! id = Some task →
  (∃ task' db',
     TaskRepository.update env id data db = (Ok task', db') ∧
     task' = updated env data task ∧ tasks db' !! id = Some task') ∨
  (∃ e db',
     TaskRepository.update env id data db = (Throw e, db') ∧
     tasks db' !! id = Some task).
Proof.
  intros Hsome.
  assert (status_or_falsy (UpdateTaskBody.status data) ∨
          ∃ s, UpdateTaskBody.status data = JStr s ∧ String.eqb s "" = false ∧
               TaskStatus_parse s = None) as [Hst | (s & Hs & Hne & Hparse)].
  { destruct (UpdateTaskBody.status data) as [| |s] eqn:Hs;
      [left; by left | left; by left |].
    destruct (String.eqb s "") eqn:Hne.
    - left. left. by rewrite truthy_JStr, Hne.
    - destruct (TaskStatus_parse s) as [st|] eqn:Hparse.
      + left. right. exists st. by rewrite (TaskStatus_parse_Some _ _ Hparse).
      + right. by exists s. }
  - left. eexists _, _. split; [by apply TaskRepository_update_run |].
    split; [done |]. simpl. apply lookup_insert_eq.
  - right. unfold TaskRepository.update.
    rewrite task_update_invalid; [by eexists _, _ |].
    unfold check_data.
    cbn [TaskData.title TaskData.description TaskData.status TaskData.userId].
    rewrite Hs, truthy_JStr, Hne. simpl. rewrite Hparse.
    by repeat case_match.
Qed.

(** C10: for the repository's [update] an empty-string [title] is the
    same as a missing one, and so is an empty-string [status]: both are
    tested for truthiness.  Whatever else the body holds, on a stored
    task a title of [""] leaves the stored title as it was and a status
    of [""] leaves the stored status as it was, while a description of
    [""] is written; the stored title is as it was also when the call
    throws because the status of the body names no enum value. *)
Theorem update_ignores_empty_title_and_status
    (env : Env) (id : string) (db : Db) :
  (∀ description status,
     TaskRepository.update env id (UpdateTaskBody.mk (JStr "") description status) db =
     TaskRepository.update env id (UpdateTaskBody.mk JUndefined description status) db) ∧
  (∀ title description,
     TaskRepository.update env id (UpdateTaskBody.mk title description (JStr "")) db =
     TaskRepository.update env id (UpdateTaskBody.mk title description JUndefined) db) ∧
  (∀ task description status,
     tasks db !! id = Some task →
     status_or_falsy status →
     ∃ task' db',
       TaskRepository.update env id
         (UpdateTaskBody.mk (JStr "") description status) db = (Ok task', db') ∧
       tasks db' !! id = Some task' ∧
       Task.title task' = Task.title task) ∧
  (∀ task title description,
     tasks db !! id = Some task →
     ∃ task' db',
       TaskRepository.update env id
         (UpdateTaskBody.mk title description (JStr "")) db = (Ok task', db') ∧
       tasks db' !! id = Some task' ∧
       Task.status task' = Task.status task) ∧
  (∀ task title status,
     tasks db !! id = Some task →
     status_or_falsy status →
     ∃ task' db',
       TaskRepository.update env id
         (UpdateTaskBody.mk title (JStr "") status) db = (Ok task', db') ∧
       tasks db' !! id = Some task' ∧
       Task.description task' = Some "") ∧
  (∀ task description status,
     tasks db !! id = Some task →
     ∃ task',
       tasks (TaskRepository.update env id
                (UpdateTaskBody.mk (JStr "") description status) db).2 !! id
         = Some task' ∧
       Task.title task' = Task.title task).
Proof.
  split; [done |]. split; [done |]. split; [| split; [| split]].
  - intros task description status Hsome Hst. eexists _, _. split.
    + by apply TaskRepository_update_run.
    + simpl. split; [apply lookup_insert_eq | done].
  - intros task title description Hsome. eexists _, _. split.
    + apply TaskRepository_update_run; [exact Hsome | by left].
    + simpl. split; [apply lookup_insert_eq | done].
  - intros task title status Hsome Hst. eexists _, _. split.
    + by apply TaskRepository_update_run.
    + simpl. split; [apply lookup_insert_eq | done].
  - intros task description status Hsome.
    destruct (TaskRepository_update_row env id
                (UpdateTaskBody.mk (JStr "") description status) db task Hsome)
      as [(task' & db' & -> & -> & Hrow) | (e & db' & -> & Hrow)].
    + by eexists.
    + by exists task.
Qed.

Lemma update_ignores_empty_title_and_status_witness :
  (∃ task' db',
     TaskRepository.update Fixture.env Fixture.t1_id
       (UpdateTaskBody.mk (JStr "") JUndefined (JStr "DONE")) Fixture.db
       = (Ok task', db') ∧
     tasks db' !! Fixture.t1_id = Some task' ∧
     Task.title task' = "T1") ∧
  (∃ task' db',
     TaskRepository.update Fixture.env Fixture.t1_id
       (UpdateTaskBody.mk (JStr "renamed") JNull (JStr "")) Fixture.db
       = (Ok task', db') ∧
     tasks db' !! Fixture.t1_id = Some task' ∧
     Task.status task' = TODO) ∧
  (∃ task' db',
     TaskRepository.update Fixture.env Fixture.t1_id
       (UpdateTaskBody.mk (JStr "renamed") (JStr "") (JStr "DONE")) Fixture.db
       = (Ok task', db') ∧
     tasks db' !! Fixture.t1_id = Some task' ∧
     Task.description task' = Some "").
Proof.
  destruct (update_ignores_empty_title_and_status Fixture.env Fixture.t1_id Fixture.db)
    as (_ & _ & Htitle & Hstatus & Hdescription & _).
  split; [| split].
  - apply (Htitle Fixture.t1); [vm_compute; reflexivity |]. right. by exists DONE.
  - apply (Hstatus Fixture.t1). vm_compute; reflexivity.
  - apply (Hdescription Fixture.t1); [vm_compute; reflexivity |]. right. by exists DONE.
Defined.

(** ** Listing *)

#[local] Instance createdAt_order_total o : Total (createdAt_order o).
Proof. intros a b. destruct o; simpl; lia. Qed.

#[local] Instance createdAt_order_trans o : Transitive (createdAt_order o).
Proof. intros a b c. destruct o; simpl; lia. Qed.

Lemma elem_of_rows {V} (m : gmap string V) (v : V) :
  v ∈ rows m ↔ ∃ k, m !! k = Some v.
Proof.
  unfold rows. rewrite list_elem_of_fmap. split.
  - intros ([k v'] & -> & Hin). exists k. by apply elem_of_map_to_list.
  - intros [k Hk]. exists (k, v). split; [done |]. by apply elem_of_map_to_list.
Qed.

Lemma findByUserId_run userId filters db :
  (∀ f, filters = Some f → status_field (TaskFilters.status f)) →
  TaskRepository.findByUserId userId filters db =
    (Ok (merge_sort (createdAt_order desc)
           (filter (matches userId (filter_status filters)) (rows (tasks db)))),
     logged (TaskFindMany userId) db).
Proof.
  intros Hwf. unfold TaskRepository.findByUserId, prisma.task.findMany,
    bind, record, validated. simpl.
  destruct filters as [[v]|]; [| reflexivity].
  destruct (Hwf _ eq_refl) as [Hv | [st Hv]]; simpl in Hv; subst v.
  - reflexivity.
  - simpl. rewrite TaskStatus_parse_name. by destruct st.
Qed.

(** C6: listing for a caller returns the stored tasks of that caller,
    all of them and no task of anyone else; with a status filter, those
    of them that have that status; each as often as the table holds it,
    and from the newest creation time to the oldest. *)
Theorem getTasks_lists_own_tasks_newest_first
    (userId : string) (filters : option TaskFilters.t) (db : Db) :
  (∀ f, filters = Some f → status_field (TaskFilters.status f)) →
  ∃ l,
    (TaskService.getTasks userId filters db).1 = Ok l ∧
    (∀ t, t ∈ l ↔
          (∃ k, tasks db !! k = Some t) ∧
          Task.userId t = userId ∧
          (∀ f st, filters = Some f →
                   TaskFilters.status f = JStr (TaskStatus_name st) →
                   Task.status t = st)) ∧
    l ≡ₚ filter (matches userId (filter_status filters)) (rows (tasks db)) ∧
    StronglySorted (λ a b, Task.createdAt b ≤ Task.createdAt a) l.
Proof.
  intros Hwf. eexists. split.
  { unfold TaskService.getTasks. by rewrite findByUserId_run. }
  split; [| split].
  - intros t. rewrite merge_sort_Permutation, list_elem_of_filter, elem_of_rows.
    unfold matches. split.
    + intros [[Hu Hs] Hk]. repeat split; try done.
      intros f st -> Hf. simpl in Hs. rewrite Hf, TaskStatus_parse_name in Hs. done.
    + intros (Hk & Hu & Hs). repeat split; try done.
      destruct filters as [[v]|]; [| done]. simpl.
      destruct (Hwf _ eq_refl) as [Hv | [st Hv]]; simpl in Hv; subst v; [done |].
      rewrite TaskStatus_parse_name. by apply (Hs _ st eq_refl).
  - apply merge_sort_Permutation.
  - apply (StronglySorted_merge_sort (createdAt_order desc)).
Qed.

Lemma getTasks_lists_own_tasks_newest_first_witness :
  (TaskService.getTasks Fixture.alice_id None Fixture.db).1
    = Ok [Fixture.t2; Fixture.t1] ∧
  (TaskService.getTasks Fixture.alice_id
     (Some (TaskFilters.mk (JStr "TODO"))) Fixture.db).1 = Ok [Fixture.t1] ∧
  ∃ l,
    (TaskService.getTasks Fixture.alice_id
       (Some (TaskFilters.mk (JStr "TODO"))) Fixture.db).1 = Ok l ∧
    (∀ t, t ∈ l ↔
          (∃ k, tasks Fixture.db !! k = Some t) ∧
          Task.userId t = Fixture.alice_id ∧
          (∀ f st, Some (TaskFilters.mk (JStr "TODO")) = Some f →
                   TaskFilters.status f = JStr (TaskStatus_name st) →
                   Task.status t = st)) ∧
    l ≡ₚ filter (matches Fixture.alice_id (Some TODO)) (rows (tasks Fixture.db)) ∧
    StronglySorted (λ a b, Task.createdAt b ≤ Task.createdAt a) l.
Proof.
  split; [vm_compute; reflexivity |]. split; [vm_compute; reflexivity |].
  apply (getTasks_lists_own_tasks_newest_first Fixture.alice_id
           (Some (TaskFilters.mk (JStr "TODO"))) Fixture.db).
  intros f [= <-]. right. by exists TODO.
Defined.

(** ** Creating a user *)

Lemma head_filter_is_Some {A} (P : A → Prop) `{!∀ x, Decision (P x)} (l : list A) x :
  x ∈ l → P x → ∃ y, head (filter P l) = Some y ∧ P y.
Proof.
  intros Hin HP.
  destruct (filter P l) as [|y l'] eqn:Hf.
  - exfalso. by apply (filter_nil_not_elem_of P l x).
  - exists y. split; [done |].
    assert (y ∈ filter P l) as Hy by (rewrite Hf; left).
    by apply list_elem_of_filter in Hy as [? _].
Qed.

Lemma findByEmail_run email db :
  UserRepository.findByEmail email db =
    (Ok (head (filter (λ u, User.email u = email) (rows (users db)))),
     logged (UserFindUnique (WhereEmail email)) db).
Proof. reflexivity. Qed.

(** C7: when a stored user has exactly the email of the request,
    [createUser] throws Conflict.  The only call made on the store is the
    lookup by email: no insert is attempted, both tables are as they
    were, and the user that holds the email is still stored as it was. *)
Theorem createUser_conflict_on_existing_email
    (env : Env) (data : CreateUserBody.t) (db : Db) (id : string) (user : User.t) :
  users db !! id = Some user →
  User.email user = CreateUserBody.email data →
  ∃ db',
    UserService.createUser env data db =
      (Throw (ConflictError "Email already in use"), db') ∧
    queries db' =
      (queries db ++ [UserFindUnique (WhereEmail (CreateUserBody.email data))])%list ∧
    users db' = users db ∧
    tasks db' = tasks db ∧
    users db' !! id = Some user.
Proof.
  intros Hsome Hemail.
  destruct (head_filter_is_Some
              (λ u, User.email u = CreateUserBody.email data)
              (rows (users db)) user) as (found & Hfound & _);
    [apply elem_of_rows; by exists id | done |].
  exists (logged (UserFindUnique (WhereEmail (CreateUserBody.email data))) db).
  split; [| done].
  unfold UserService.createUser, bind. by rewrite findByEmail_run, Hfound.
Qed.

Lemma createUser_conflict_on_existing_email_witness :
  ∃ db',
    UserService.createUser Fixture.env
      (CreateUserBody.mk "alice@example.com" "Another Alice") Fixture.db =
      (Throw (ConflictError "Email already in use"), db') ∧
    queries db' = [UserFindUnique (WhereEmail "alice@example.com")] ∧
    users db' = users Fixture.db ∧
    tasks db' = tasks Fixture.db ∧
    users db' !! Fixture.alice_id = Some Fixture.alice.
Proof.
  apply (createUser_conflict_on_existing_email Fixture.env
           (CreateUserBody.mk "alice@example.com" "Another Alice")
           Fixture.db Fixture.alice_id Fixture.alice);
    vm_compute; reflexivity.
Defined.

(** The comparison is exact: an email that differs in case alone is
    not taken. *)
Example createUser_other_case_is_free :
  (UserService.createUser Fixture.env
     (CreateUserBody.mk "Alice@example.com" "Another Alice") Fixture.db).1 =
  Ok (User.mk Fixture.free_id "Alice@example.com" "Another Alice" 99 99).
Proof. vm_compute. reflexivity. Qed.

(** ** The identifier pattern *)

Lemma hex_any_case_digit c : hex_any_case c = true ↔ hex_digit c.
Proof.
  unfold hex_digit. rewrite <- (bool_decide_spec (c ∈ _)).
  destruct c as [[] [] [] [] [] [] [] []]; vm_compute; done.
Qed.

Lemma append_String c g rest :
  (String c g ++ rest)%string = String c (g ++ rest)%string.
Proof. reflexivity. Qed.

Lemma append_empty_l s : ("" ++ s)%string = s.
Proof. reflexivity. Qed.

Lemma append_empty_r s : (s ++ "")%string = s.
Proof. induction s as [|c s IH]; [done |]. by rewrite append_String, IH. Qed.

Lemma repeat_class_Some cls n s rest :
  repeat_class cls n s = Some rest ↔
  ∃ g, s = (g ++ rest)%string ∧ String.length g = n ∧
       ∀ c, c ∈ list_ascii_of_string g → cls c = true.
Proof.
  revert s. induction n as [|n IH]; intros s; simpl.
  - split.
    + intros [= ->]. exists ""%string. repeat split. intros c Hc. inversion Hc.
    + intros (g & -> & Hlen & _). destruct g; [done | discriminate].
  - destruct s as [|c s].
    + split; [done |]. intros (g & Hs & Hlen & _). destruct g; discriminate.
    + destruct (cls c) eqn:Hc.
      * rewrite IH. split.
        -- intros (g & -> & Hlen & Hall). exists (String c g).
           split; [done |]. split; [by simpl; rewrite Hlen |].
           intros x Hin. simpl in Hin. apply elem_of_cons in Hin as [-> | Hin]; auto.
        -- intros (g & Hs & Hlen & Hall). destruct g as [|c' g]; [discriminate |].
           rewrite append_String in Hs. simpl in Hlen. simplify_eq.
           exists g. split; [done |]. split; [done |].
           intros x Hin. apply Hall. simpl. by right.
      * split; [done |]. intros (g & Hs & Hlen & Hall).
        destruct g as [|c' g]; [discriminate |].
        rewrite append_String in Hs. simplify_eq.
        rewrite Hall in Hc; [done | simpl; left].
Qed.

Lemma literal_Some c s rest : literal c s = Some rest ↔ s = String c rest.
Proof.
  destruct s as [|c' s]; simpl; [done |].
  destruct (Ascii.eqb c c') eqn:Hc.
  - apply Ascii.eqb_eq in Hc as ->. split; congruence.
  - apply Ascii.eqb_neq in Hc. split; [done | congruence].
Qed.

Lemma uuid_shape_groups cls s :
  uuid_shape cls s = true ↔
  ∃ a b c d e : string,
    s = (a ++ "-" ++ b ++ "-" ++ c ++ "-" ++ d ++ "-" ++ e)%string ∧
    (String.length a = 8%nat ∧ ∀ x, x ∈ list_ascii_of_string a → cls x = true) ∧
    (String.length b = 4%nat ∧ ∀ x, x ∈ list_ascii_of_string b → cls x = true) ∧
    (String.length c = 4%nat ∧ ∀ x, x ∈ list_ascii_of_string c → cls x = true) ∧
    (String.length d = 4%nat ∧ ∀ x, x ∈ list_ascii_of_string d → cls x = true) ∧
    (String.length e = 12%nat ∧ ∀ x, x ∈ list_ascii_of_string e → cls x = true).
Proof.
  unfold uuid_shape. cbn [match_atoms]. split.
  - destruct (repeat_class cls 8 s) as [s1|] eqn:H1; [| done].
    destruct (literal _ s1) as [s2|] eqn:H2; [| done].
    destruct (repeat_class cls 4 s2) as [s3|] eqn:H3; [| done].
    destruct (literal _ s3) as [s4|] eqn:H4; [| done].
    destruct (repeat_class cls 4 s4) as [s5|] eqn:H5; [| done].
    destruct (literal _ s5) as [s6|] eqn:H6; [| done].
    destruct (repeat_class cls 4 s6) as [s7|] eqn:H7; [| done].
    destruct (literal _ s7) as [s8|] eqn:H8; [| done].
    destruct (repeat_class cls 12 s8) as [s9|] eqn:H9; [| done].
    destruct s9; [| done]. intros _.
    apply repeat_class_Some in H1 as (a & -> & Ha).
    apply literal_Some in H2 as ->.
    apply repeat_class_Some in H3 as (b & -> & Hb).
    apply literal_Some in H4 as ->.
    apply repeat_class_Some in H5 as (c & -> & Hc).
    apply literal_Some in H6 as ->.
    apply repeat_class_Some in H7 as (d & -> & Hd).
    apply literal_Some in H8 as ->.
    apply repeat_class_Some in H9 as (e & -> & He).
    exists a, b, c, d, e. split; [| done].
    by rewrite (append_empty_r e) at 1.
  - intros (a & b & c & d & e & -> & Ha & Hb & Hc & Hd & He).
    pose proof (λ n g rest H, proj2 (repeat_class_Some cls n (g ++ rest)%string rest)
                  (ex_intro _ g (conj eq_refl H))) as Hrep.
    rewrite (Hrep _ _ _ Ha), append_String, append_empty_l. cbn [literal]. rewrite Ascii.eqb_refl.
    rewrite (Hrep _ _ _ Hb), append_String, append_empty_l. cbn [literal]. rewrite Ascii.eqb_refl.
    rewrite (Hrep _ _ _ Hc), append_String, append_empty_l. cbn [literal]. rewrite Ascii.eqb_refl.
    rewrite (Hrep _ _ _ Hd), append_String, append_empty_l. cbn [literal]. rewrite Ascii.eqb_refl.
    rewrite <- (append_empty_r e) at 1. rewrite (Hrep _ _ _ He). done.
Qed.

(** The pattern of the middleware accepts the hyphenated 8-4-4-4-12
    hexadecimal strings, in either case, and nothing else. *)
Lemma UUID_REGEX_hyphenated_hex s : UUID_REGEX s = true ↔ hyphenated_hex s.
Proof.
  unfold UUID_REGEX, hyphenated_hex, hex_group. rewrite uuid_shape_groups.
  do 5 (apply exist_proper; intros ?).
  by setoid_rewrite hex_any_case_digit.
Qed.

(** ** The authorization middleware *)

Lemma authMiddleware_run request db :
  authMiddleware request db =
    match supplied request with
    | None => (Throw missing_identifier, db)
    | Some v =>
        if String.eqb v "" then (Throw missing_identifier, db)
        else if UUID_REGEX v then
          match users db !! v with
          | None => (Throw (UnauthorizedError "User not found."),
                     logged (UserFindUnique (WhereId v)) db)
          | Some _ => (Ok (Request.set_userId v request),
                       logged (UserFindUnique (WhereId v)) db)
          end
        else (Throw (UnauthorizedError "Invalid user identifier format."), db)
    end.
Proof.
  unfold authMiddleware, supplied.
  assert (∀ o : option string,
            (if falsy o
             then throw missing_identifier
             else if negb (UUID_REGEX (default "" o))
                  then throw (UnauthorizedError "Invalid user identifier format.")
                  else await user := prisma.user.findUnique (WhereId (default "" o)) in
                       match user with
                       | Some _ => ret (Request.set_userId (default "" o) request)
                       | None => throw (UnauthorizedError "User not found.")
                       end) db =
            match o with
            | None => (Throw missing_identifier, db)
            | Some v =>
                if String.eqb v "" then (Throw missing_identifier, db)
                else if UUID_REGEX v then
                  match users db !! v with
                  | None => (Throw (UnauthorizedError "User not found."),
                             logged (UserFindUnique (WhereId v)) db)
                  | Some _ => (Ok (Request.set_userId v request),
                               logged (UserFindUnique (WhereId v)) db)
                  end
                else (Throw (UnauthorizedError "Invalid user identifier format."), db)
            end) as Hcred.
  { intros [v|]; [| done]. simpl. destruct (String.eqb v ""); [done |].
    destruct (UUID_REGEX v); [| done]. simpl.
    unfold bind, prisma.user.findUnique, bind, record, get_users, ret. simpl.
    by destruct (users db !! v). }
  destruct (Request.headers request !! "x-user-id") as [h|]; simpl.
  - destruct (String.eqb h "") eqn:Hh; [apply Hcred |].
    apply (Hcred (Some h)).
  - apply Hcred.
Qed.

(** C2, amended: the middleware takes the identifier from the
    [x-user-id] header, and from the [userId] query parameter when the
    header is missing or empty.  It throws Unauthenticated, without
    asking the store, when no identifier is supplied and when the
    identifier is not a hyphenated 8-4-4-4-12 hexadecimal string (in
    either case); it throws Unauthenticated after one lookup when no
    user has the identifier; otherwise it returns the request with the
    identifier attached, after that one lookup by primary key and
    without writing to the tables. *)
Theorem authMiddleware_resolves_caller (request : Request.t) (db : Db) :
  (supplied request = None ∨ supplied request = Some "" →
     authMiddleware request db = (Throw missing_identifier, db)) ∧
  (∀ v, supplied request = Some v → v ≠ "" → ¬ hyphenated_hex v →
     authMiddleware request db =
       (Throw (UnauthorizedError "Invalid user identifier format."), db)) ∧
  (∀ v, supplied request = Some v → hyphenated_hex v → users db !! v = None →
     ∃ db',
       authMiddleware request db = (Throw (UnauthorizedError "User not found."), db') ∧
       queries db' = (queries db ++ [UserFindUnique (WhereId v)])%list ∧
       users db' = users db ∧ tasks db' = tasks db) ∧
  (∀ v, supplied request = Some v → hyphenated_hex v → is_Some (users db !! v) →
     ∃ request' db',
       authMiddleware request db = (Ok request', db') ∧
       Request.userId request' = Some v ∧
       Request.headers request' = Request.headers request ∧
       Request.query request' = Request.query request ∧
       Request.params_id request' = Request.params_id request ∧
       queries db' = (queries db ++ [UserFindUnique (WhereId v)])%list ∧
       users db' = users db ∧ tasks db' = tasks db).
Proof.
  rewrite authMiddleware_run. repeat split.
  - by intros [-> | ->].
  - intros v -> Hne Hbad. apply String.eqb_neq in Hne. rewrite Hne.
    rewrite <- UUID_REGEX_hyphenated_hex in Hbad. by destruct (UUID_REGEX v).
  - intros v -> Hhex Hnone.
    assert (v ≠ "") as Hne%String.eqb_neq.
    { intros ->. by apply UUID_REGEX_hyphenated_hex in Hhex. }
    apply UUID_REGEX_hyphenated_hex in Hhex. rewrite Hne, Hhex, Hnone.
    by eexists.
  - intros v -> Hhex [u Hu].
    assert (v ≠ "") as Hne%String.eqb_neq.
    { intros ->. by apply UUID_REGEX_hyphenated_hex in Hhex. }
    apply UUID_REGEX_hyphenated_hex in Hhex. rewrite Hne, Hhex, Hu.
    by eexists _, _.
Qed.

Lemma authMiddleware_resolves_caller_witness :
  ∃ request' db',
    authMiddleware (Fixture.request (Some Fixture.alice_id) (Some Fixture.bob_id)
                      Fixture.t1_id) Fixture.db = (Ok request', db') ∧
    Request.userId request' = Some Fixture.alice_id ∧
    queries db' = [UserFindUnique (WhereId Fixture.alice_id)].
Proof.
  destruct (authMiddleware_resolves_caller
              (Fixture.request (Some Fixture.alice_id) (Some Fixture.bob_id)
                 Fixture.t1_id) Fixture.db) as (_ & _ & _ & Hok).
  destruct (Hok Fixture.alice_id) as (request' & db' & Hrun & Hid & _ & _ & _ & Hq & _);
    [vm_compute; reflexivity
    | apply UUID_REGEX_hyphenated_hex; vm_compute; reflexivity
    | eexists; vm_compute; reflexivity |].
  by exists request', db'.
Defined.

(** C2 as stated fails: a header that is present and empty does not
    keep the middleware from the query parameter, so an identifier that
    comes from the query string is attached although the request has
    the header. *)
Lemma authMiddleware_empty_header_falls_back :
  Request.headers Fixture.empty_header_request !! "x-user-id" = Some "" ∧
  Request.query Fixture.empty_header_request !! "userId" = Some Fixture.alice_id ∧
  (authMiddleware Fixture.empty_header_request Fixture.db).1 =
    Ok (Request.set_userId Fixture.alice_id Fixture.empty_header_request) ∧
  ¬ (∀ request db request' db' h,
       Request.headers request !! "x-user-id" = Some h →
       authMiddleware request db = (Ok request', db') →
       Request.userId request' = Some h).
Proof.
  split; [vm_compute; reflexivity |].
  split; [vm_compute; reflexivity |].
  split; [vm_compute; reflexivity |].
  intros Hclaim.
  specialize (Hclaim Fixture.empty_header_request Fixture.db
                (Request.set_userId Fixture.alice_id Fixture.empty_header_request)
                (logged (UserFindUnique (WhereId Fixture.alice_id)) Fixture.db) "").
  discriminate Hclaim; vm_compute; reflexivity.
Qed.

(** ** The archive route *)

Lemma archiveTask_missing env taskId userId db :
  tasks db !! taskId = None →
  TaskService.archiveTask env taskId userId db =
    (Throw (NotFoundError "Task"), logged (TaskFindUnique taskId) db).
Proof.
  intros Hnone. unfold TaskService.archiveTask, bind.
  by rewrite findById_run, Hnone.
Qed.

Lemma archiveTask_foreign env taskId userId db task :
  tasks db !! taskId = Some task → Task.userId task ≠ userId →
  TaskService.archiveTask env taskId userId db =
    (Throw (ForbiddenError "You do not have access to this task"),
     logged (TaskFindUnique taskId) db).
Proof.
  intros Hsome Hne%negb_eqb_true. unfold TaskService.archiveTask, bind.
  by rewrite findById_run, Hsome, Hne.
Qed.

Lemma authMiddleware_authenticated request db v :
  authenticated request db v →
  authMiddleware request db =
    (Ok (Request.set_userId v request), logged (UserFindUnique (WhereId v)) db).
Proof.
  intros (Hv & Hhex & [u Hu]). rewrite authMiddleware_run, Hv.
  assert (v ≠ "") as Hne%String.eqb_neq.
  { intros ->. by apply UUID_REGEX_hyphenated_hex in Hhex. }
  apply UUID_REGEX_hyphenated_hex in Hhex. by rewrite Hne, Hhex, Hu.
Qed.

Lemma authMiddleware_unauthenticated request db :
  (¬ ∃ v, authenticated request db v) →
  ∃ message db', authMiddleware request db = (Throw (UnauthorizedError message), db').
Proof.
  intros Hno. rewrite authMiddleware_run.
  destruct (supplied request) as [v|] eqn:Hv; [| by eexists _, _].
  destruct (String.eqb v ""); [by eexists _, _ |].
  destruct (UUID_REGEX v) eqn:Hre; [| by eexists _, _].
  destruct (users db !! v) as [u|] eqn:Hu; [| by eexists _, _].
  destruct Hno. exists v. split; [done |]. split; [| by eexists].
  by apply UUID_REGEX_hyphenated_hex.
Qed.

Lemma archive_route_stopped config (rateLimit parser : Stage) env request db :
  (∀ e, rateLimit request = Throw e →
        taskRoutes.archive config rateLimit parser env request db =
          (errorHandler config e, db)) ∧
  (∀ e, rateLimit request = Ok tt → parser request = Throw e →
        taskRoutes.archive config rateLimit parser env request db =
          (errorHandler config e, db)).
Proof.
  unfold taskRoutes.archive, taskRoutes.route, bind, run_stage. split.
  - intros e ->. done.
  - intros e -> ->. done.
Qed.

Lemma archive_route_run config (rateLimit parser : Stage) env request db :
  rateLimit request = Ok tt → parser request = Ok tt →
  taskRoutes.archive config rateLimit parser env request db =
    if id_pattern (Request.params_id request) then
      match authMiddleware request db with
      | (Ok request', db1) =>
          match Request.userId request' with
          | Some userId =>
              match TaskService.archiveTask env (Request.params_id request')
                      userId db1 with
              | (Ok task, db2) => (mkReply 200 (Success task), db2)
              | (Throw e, db2) => (errorHandler config e, db2)
              end
          | None =>
              match taskRoutes.guarded_without_caller (A := Reply)
                      (Request.params_id request') db1 with
              | (Ok reply, db2) => (reply, db2)
              | (Throw e, db2) => (errorHandler config e, db2)
              end
          end
      | (Throw e, db1) => (errorHandler config e, db1)
      end
    else (errorHandler config FastifyValidation, db).
Proof.
  intros Hlimit Hparser.
  unfold taskRoutes.archive, taskRoutes.route, taskRoutes.archive_handler,
    archiveTaskSchema, bind, run_stage.
  rewrite Hlimit, Hparser.
  destruct (id_pattern _); [| done]. simpl.
  destruct (authMiddleware request db) as [[request'|e] db1]; [| done].
  destruct (Request.userId request'); [| done].
  by destruct (TaskService.archiveTask _ _ _ _) as [[task|e] db2].
Qed.

Lemma authenticated_or_not request db :
  (∃ v, authenticated request db v) ∨ ¬ (∃ v, authenticated request db v).
Proof.
  unfold authenticated.
  destruct (supplied request) as [v|]; [| right; by intros (v & ? & _)].
  destruct (UUID_REGEX v) eqn:Hre.
  - destruct (users db !! v) as [u|] eqn:Hu.
    + left. exists v. split; [done |]. split; [| by eexists].
      by apply UUID_REGEX_hyphenated_hex.
    + right. intros (v' & [= <-] & _ & [u Hu']). congruence.
  - right. intros (v' & [= <-] & Hhex%UUID_REGEX_hyphenated_hex & _). congruence.
Qed.

Ltac status_code := simpl; rewrite !elem_of_cons; auto 10.

(** C8, amended: the replies of [POST /tasks/:id/archive], the store
    answering.  A request the rate limiter stops, or the content-type
    parser after it, gets the error handler's reply to what that stage
    threw, with the status code the error carries (429, 415 and the
    like) or 500 when it carries none, and the store is not asked.  A request they let through is
    answered 400 when the id is not in the pattern of the schema, else
    401 when it is not authenticated, else 404 when no task has the id,
    else 403 when the task belongs to another user, else 200 with the
    task, which is stored with status [ARCHIVED]; it has no other
    status code. *)
Theorem archive_route_replies
    (config : Config) (rateLimit parser : Stage) (env : Env)
    (request : Request.t) (db : Db) :
  let id := Request.params_id request in
  let reply := (taskRoutes.archive config rateLimit parser env request db).1 in
  let db' := (taskRoutes.archive config rateLimit parser env request db).2 in
  (∀ e, rateLimit request = Throw e → reply = errorHandler config e ∧ db' = db) ∧
  (∀ e, rateLimit request = Ok tt → parser request = Throw e →
        reply = errorHandler config e ∧ db' = db) ∧
  (∀ code message, code ≠ 0 →
     statusCode (errorHandler config (GenericError (Some code) message)) = code) ∧
  (∀ message, statusCode (errorHandler config (GenericError None message)) = 500) ∧
  (rateLimit request = Ok tt → parser request = Ok tt →
   (id_pattern id = false → statusCode reply = 400) ∧
   (id_pattern id = true → (¬ ∃ v, authenticated request db v) →
      statusCode reply = 401) ∧
   (∀ v, id_pattern id = true → authenticated request db v →
         tasks db !! id = None → statusCode reply = 404) ∧
   (∀ v task, id_pattern id = true → authenticated request db v →
         tasks db !! id = Some task → Task.userId task ≠ v →
         statusCode reply = 403) ∧
   (∀ v task, id_pattern id = true → authenticated request db v →
         tasks db !! id = Some task → Task.userId task = v →
         statusCode reply = 200 ∧
         ∃ task', payload reply = Success task' ∧
                  Task.status task' = ARCHIVED ∧
                  tasks db' !! id = Some task') ∧
   statusCode reply ∈ [200; 400; 401; 403; 404]).
Proof.
  intros id reply db'. subst reply db'.
  destruct (archive_route_stopped config rateLimit parser env request db)
    as [Hlimited Hunparsed].
  split; [intros e He; by rewrite (Hlimited e He) |].
  split; [intros e Hl He; by rewrite (Hunparsed e Hl He) |].
  split.
  { intros code message Hcode. simpl. apply Z.eqb_neq in Hcode. by rewrite Hcode. }
  split; [done |].
  intros Hlimit Hparser.
  assert (id_pattern id = false →
          taskRoutes.archive config rateLimit parser env request db =
            (errorHandler config FastifyValidation, db)) as H400.
  { intros Hid. rewrite archive_route_run by done. fold id. by rewrite Hid. }
  assert (id_pattern id = true → (¬ ∃ v, authenticated request db v) →
          ∃ message db1,
            taskRoutes.archive config rateLimit parser env request db =
              (errorHandler config (UnauthorizedError message), db1)) as H401.
  { intros Hid Hno. rewrite archive_route_run by done. fold id. rewrite Hid.
    destruct (authMiddleware_unauthenticated _ _ Hno) as (m & db1 & ->).
    by eexists _, _. }
  assert (∀ v, id_pattern id = true → authenticated request db v →
               tasks db !! id = None →
               taskRoutes.archive config rateLimit parser env request db =
                 (errorHandler config (NotFoundError "Task"),
                  logged (TaskFindUnique id) (logged (UserFindUnique (WhereId v)) db)))
    as H404.
  { intros v Hid Hauth Hnone. rewrite archive_route_run by done. fold id. rewrite Hid.
    rewrite (authMiddleware_authenticated _ _ _ Hauth). simpl.
    by rewrite archiveTask_missing. }
  assert (∀ v task, id_pattern id = true → authenticated request db v →
               tasks db !! id = Some task → Task.userId task ≠ v →
               taskRoutes.archive config rateLimit parser env request db =
                 (errorHandler config
                    (ForbiddenError "You do not have access to this task"),
                  logged (TaskFindUnique id) (logged (UserFindUnique (WhereId v)) db)))
    as H403.
  { intros v task Hid Hauth Hsome Hne. rewrite archive_route_run by done. fold id.
    rewrite Hid, (authMiddleware_authenticated _ _ _ Hauth). simpl.
    by rewrite (archiveTask_foreign _ _ _ _ task). }
  assert (∀ v task, id_pattern id = true → authenticated request db v →
               tasks db !! id = Some task → Task.userId task = v →
               ∃ task' db',
                 taskRoutes.archive config rateLimit parser env request db =
                   (mkReply 200 (Success task'), db') ∧
                 Task.status task' = ARCHIVED ∧ tasks db' !! id = Some task')
    as H200.
  { intros v task Hid Hauth Hsome Hown. rewrite archive_route_run by done. fold id.
    rewrite Hid, (authMiddleware_authenticated _ _ _ Hauth). simpl.
    rewrite (archiveTask_run _ _ _ _ task); [| done | done].
    eexists _, _. split; [done |]. simpl. split; [done | apply lookup_insert_eq]. }
  split; [| split; [| split; [| split; [| split]]]].
  - intros Hid. by rewrite H400.
  - intros Hid Hno. by destruct (H401 Hid Hno) as (m & db1 & ->).
  - intros v Hid Hauth Hnone. by rewrite (H404 v).
  - intros v task Hid Hauth Hsome Hne. by rewrite (H403 v task).
  - intros v task Hid Hauth Hsome Hown.
    destruct (H200 v task) as (task' & db' & -> & Hst & Hrow); try done.
    split; [done |]. by exists task'.
  - destruct (id_pattern id) eqn:Hid; [| rewrite H400; [status_code | done]].
    destruct (authenticated_or_not request db) as [[v Hauth] | Hno].
    + destruct (tasks db !! id) as [task|] eqn:Htask.
      * destruct (decide (Task.userId task = v)) as [Hown | Hne].
        -- destruct (H200 v task) as (task' & db' & -> & _); try done. status_code.
        -- rewrite (H403 v task); try done. status_code.
      * rewrite (H404 v); try done. status_code.
    + destruct (H401 eq_refl Hno) as (m & db1 & ->). status_code.
Qed.

Lemma archive_route_replies_witness :
  statusCode (taskRoutes.archive Fixture.config Fixture.pass Fixture.pass Fixture.env
                (Fixture.request (Some Fixture.alice_id) None Fixture.t1_id)
                Fixture.db).1 = 200 ∧
  statusCode (taskRoutes.archive Fixture.config Fixture.pass Fixture.pass Fixture.env
                (Fixture.request (Some Fixture.alice_id) None "not-a-uuid")
                Fixture.db).1 = 400 ∧
  statusCode (taskRoutes.archive Fixture.config Fixture.pass Fixture.unsupported
                Fixture.env
                (Fixture.request (Some Fixture.alice_id) None Fixture.t1_id)
                Fixture.db).1 = 415 ∧
  statusCode (taskRoutes.archive Fixture.config Fixture.too_many Fixture.pass
                Fixture.env
                (Fixture.request (Some Fixture.alice_id) None Fixture.t1_id)
                Fixture.db).1 = 429.
Proof.
  split; [| split; [| split]].
  - pose proof (archive_route_replies Fixture.config Fixture.pass Fixture.pass
                  Fixture.env
                  (Fixture.request (Some Fixture.alice_id) None Fixture.t1_id)
                  Fixture.db) as (_ & _ & _ & _ & Hthrough).
    destruct (Hthrough eq_refl eq_refl) as (_ & _ & _ & _ & Hok & _).
    apply (Hok Fixture.alice_id Fixture.t1); [vm_compute; reflexivity | |
      vm_compute; reflexivity | vm_compute; reflexivity].
    split; [vm_compute; reflexivity |].
    split; [apply UUID_REGEX_hyphenated_hex; vm_compute; reflexivity |].
    eexists; vm_compute; reflexivity.
  - pose proof (archive_route_replies Fixture.config Fixture.pass Fixture.pass
                  Fixture.env
                  (Fixture.request (Some Fixture.alice_id) None "not-a-uuid")
                  Fixture.db) as (_ & _ & _ & _ & Hthrough).
    destruct (Hthrough eq_refl eq_refl) as (Hbad & _).
    apply Hbad. vm_compute; reflexivity.
  - pose proof (archive_route_replies Fixture.config Fixture.pass Fixture.unsupported
                  Fixture.env
                  (Fixture.request (Some Fixture.alice_id) None Fixture.t1_id)
                  Fixture.db) as (_ & Hparser & Hcode & _).
    destruct (Hparser _ eq_refl eq_refl) as [-> _]. by apply Hcode.
  - pose proof (archive_route_replies Fixture.config Fixture.too_many Fixture.pass
                  Fixture.env
                  (Fixture.request (Some Fixture.alice_id) None Fixture.t1_id)
                  Fixture.db) as (Hlimit & _ & Hcode & _).
    destruct (Hlimit _ eq_refl) as [-> _]. by apply Hcode.
Defined.

(** C8 as stated fails: an authenticated user who asks to archive a
    task of another user, and whom the rate limiter and the parser let
    through, gets 403, which is neither 401 nor 404. *)
Lemma archive_route_forbidden_for_non_owner :
  tasks Fixture.db !! Request.params_id Fixture.foreign_archive_request
    = Some Fixture.t1 ∧
  Task.userId Fixture.t1 = Fixture.alice_id ∧
  Request.headers Fixture.foreign_archive_request !! "x-user-id"
    = Some Fixture.bob_id ∧
  (taskRoutes.archive Fixture.config Fixture.pass Fixture.pass Fixture.env
     Fixture.foreign_archive_request Fixture.db).1 =
    mkReply 403 (Failure "FORBIDDEN" "You do not have access to this task" true) ∧
  ¬ (∀ config rateLimit parser env request db,
       statusCode (taskRoutes.archive config rateLimit parser env request db).1
         ∈ [200; 401; 404]).
Proof.
  split; [vm_compute; reflexivity |].
  split; [vm_compute; reflexivity |].
  split; [vm_compute; reflexivity |].
  split; [vm_compute; reflexivity |].
  intros Hclaim.
  specialize (Hclaim Fixture.config Fixture.pass Fixture.pass Fixture.env
                Fixture.foreign_archive_request Fixture.db).
  assert (statusCode (taskRoutes.archive Fixture.config Fixture.pass Fixture.pass
                        Fixture.env Fixture.foreign_archive_request Fixture.db).1
          = 403) as Hcode
    by (vm_compute; reflexivity).
  rewrite Hcode, !elem_of_cons, elem_of_nil in Hclaim.
  by destruct Hclaim as [? | [? | [? | []]]].
Qed.

(** * Further properties of the services *)

(** ** What the calls of the client do to the tables *)

Lemma task_update_effect env id d db :
  (∃ e, prisma.task.update env id d db = (Throw e, logged (TaskUpdate id) db)) ∨
  (∃ p t, check_data d = Some p ∧ tasks db !! id = Some t ∧
          prisma.task.update env id d db =
            (Ok (prisma.task.apply_patch env p t),
             mkDb (users db) (<[id := prisma.task.apply_patch env p t]> (tasks db))
               (queries db ++ [TaskUpdate id]))).
Proof.
  unfold prisma.task.update, bind, record, validated.
  destruct (check_data d) as [p|]; simpl; [| left; by eexists].
  destruct (tasks db !! id) as [t|] eqn:Ht; simpl; [| left; by eexists].
  destruct (match TaskPatch.userId p with
            | Some u => bool_decide (is_Some (users db !! u))
            | None => true
            end); simpl; [| left; by eexists].
  right. by exists p, t.
Qed.

Lemma task_delete_run id db :
  prisma.task.delete id db =
    match tasks db !! id with
    | Some t => (Ok t, mkDb (users db) (base.delete id (tasks db))
                         (queries db ++ [TaskDelete id]))
    | None => (Throw (PrismaError P2025), logged (TaskDelete id) db)
    end.
Proof.
  unfold prisma.task.delete, bind, record. simpl.
  by destruct (tasks db !! id).
Qed.

Lemma getTaskById_run taskId userId db :
  TaskService.getTaskById taskId userId db =
    (match tasks db !! taskId with
     | None => Throw (NotFoundError "Task")
     | Some task =>
         if negb (String.eqb (Task.userId task) userId)
         then Throw (ForbiddenError "You do not have access to this task")
         else Ok task
     end, logged (TaskFindUnique taskId) db).
Proof.
  unfold TaskService.getTaskById, bind. rewrite findById_run.
  destruct (tasks db !! taskId) as [task|]; [| done].
  by destruct (negb _).
Qed.

(** X1: [getTaskById] returns a task exactly when that task is stored
    under the id and belongs to the caller, and it never writes to the
    tables, whether it returns or throws. *)
Theorem getTaskById_returns_the_owned_task
    (taskId userId : string) (db : Db) (task : Task.t) :
  ((TaskService.getTaskById taskId userId db).1 = Ok task ↔
     tasks db !! taskId = Some task ∧ Task.userId task = userId) ∧
  same_tables db (TaskService.getTaskById taskId userId db).2.
Proof.
  rewrite getTaskById_run. split; [| done]. simpl.
  destruct (tasks db !! taskId) as [t|]; [| by split; [| intros [? _]]].
  destruct (negb _) eqn:Hown.
  - apply negb_eqb_true in Hown. split; [done |]. by intros [[= ->] ?].
  - apply negb_eqb_false in Hown. split.
    + by intros [= ->].
    + by intros [[= ->] _].
Qed.

Lemma deleteTask_run taskId userId db task :
  tasks db !! taskId = Some task → Task.userId task = userId →
  TaskService.deleteTask taskId userId db =
    (Ok tt,
     mkDb (users db) (base.delete taskId (tasks db))
       (queries db ++ [TaskFindUnique taskId; TaskDelete taskId])).
Proof.
  intros Hsome Hown%negb_eqb_false.
  unfold TaskService.deleteTask, bind. rewrite findById_run, Hsome, Hown.
  unfold TaskRepository.delete. rewrite task_delete_run. simpl. rewrite Hsome.
  by rewrite <- app_assoc.
Qed.

(** X2: when the caller owns the task, [deleteTask] removes that row
    and no other: every other task and every user is kept, and the id
    is NotFound afterwards, also for its former owner. *)
Theorem deleteTask_removes_that_task_only
    (taskId userId : string) (db : Db) (task : Task.t) :
  tasks db !! taskId = Some task →
  Task.userId task = userId →
  ∃ db',
    TaskService.deleteTask taskId userId db = (Ok tt, db') ∧
    tasks db' !! taskId = None ∧
    (∀ other, other ≠ taskId → tasks db' !! other = tasks db !! other) ∧
    users db' = users db ∧
    (TaskService.getTaskById taskId userId db').1 = Throw (NotFoundError "Task").
Proof.
  intros Hsome Hown. eexists. split; [by apply (deleteTask_run _ _ _ task) |].
  simpl. split; [apply lookup_delete_eq |].
  split; [intros other Hne; by apply lookup_delete_ne |].
  split; [done |].
  rewrite getTaskById_run. simpl. by rewrite lookup_delete_eq.
Qed.

Lemma deleteTask_removes_that_task_only_witness :
  ∃ db',
    TaskService.deleteTask Fixture.t1_id Fixture.alice_id Fixture.db = (Ok tt, db') ∧
    tasks db' !! Fixture.t1_id = None ∧
    tasks db' !! Fixture.t2_id = Some Fixture.t2 ∧
    (TaskService.getTaskById Fixture.t1_id Fixture.alice_id db').1
      = Throw (NotFoundError "Task").
Proof.
  destruct (deleteTask_removes_that_task_only Fixture.t1_id Fixture.alice_id
              Fixture.db Fixture.t1)
    as (db' & Hrun & Hgone & Hrest & _ & Hget);
    [vm_compute; reflexivity | vm_compute; reflexivity |].
  exists db'. split; [done |]. split; [done |]. split; [| done].
  rewrite Hrest; [vm_compute; reflexivity | vm_compute; discriminate].
Defined.


(** ** Failures, other users' tasks and the fixed columns *)

Lemma check_data_no_owner t d s p :
  check_data (TaskData.mk t d s JUndefined) = Some p → TaskPatch.userId p = None.
Proof.
  unfold check_data. simpl.
  destruct (check_string t), (check_nullable d), (check_status s); by intros [= <-].
Qed.

Lemma guarded_update env taskId userId db t d s :
  guarded_write env taskId userId db
    ((await task := TaskRepository.findById taskId in
      match task with
      | None => throw (NotFoundError "Task")
      | Some task =>
          if negb (String.eqb (Task.userId task) userId)
          then throw (ForbiddenError "You do not have access to this task")
          else prisma.task.update env taskId (TaskData.mk t d s JUndefined)
      end) db).
Proof.
  unfold guarded_write, bind. rewrite findById_run.
  destruct (tasks db !! taskId) as [task|] eqn:Hsome; [| left; by eexists].
  destruct (negb _) eqn:Hown; [left; by eexists |].
  apply negb_eqb_false in Hown.
  destruct (task_update_effect env taskId (TaskData.mk t d s JUndefined)
              (logged (TaskFindUnique taskId) db))
    as [[e ->] | (p & t0 & Hp & Ht0 & ->)].
  - left. by eexists.
  - right. simpl in Ht0. rewrite Hsome in Ht0. injection Ht0 as <-.
    exists task, p. repeat split; try done.
    by apply check_data_no_owner in Hp.
Qed.

Lemma updateTask_guarded env taskId userId data db :
  guarded_write env taskId userId db
    (TaskService.updateTask env taskId userId data db).
Proof. apply guarded_update. Qed.

Lemma archiveTask_guarded env taskId userId db :
  guarded_write env taskId userId db (TaskService.archiveTask env taskId userId db).
Proof. apply guarded_update. Qed.

Lemma deleteTask_effect taskId userId db :
  (∃ e, (TaskService.deleteTask taskId userId db).1 = Throw e ∧
        same_tables db (TaskService.deleteTask taskId userId db).2) ∨
  (∃ task, tasks db !! taskId = Some task ∧ Task.userId task = userId ∧
           TaskService.deleteTask taskId userId db =
             (Ok tt, mkDb (users db) (base.delete taskId (tasks db))
                       (queries db ++ [TaskFindUnique taskId; TaskDelete taskId]))).
Proof.
  destruct (tasks db !! taskId) as [task|] eqn:Hsome.
  - destruct (decide (Task.userId task = userId)) as [Hown | Hne].
    + right. exists task. by rewrite (deleteTask_run _ _ _ task).
    + left. apply negb_eqb_true in Hne.
      unfold TaskService.deleteTask, bind. rewrite findById_run, Hsome, Hne.
      by eexists.
  - left. unfold TaskService.deleteTask, bind. rewrite findById_run, Hsome.
    by eexists.
Qed.

Lemma createTask_effect env userId data db :
  (∃ e, (TaskService.createTask env userId data db).1 = Throw e ∧
        same_tables db (TaskService.createTask env userId data db).2) ∨
  (∃ task, tasks db !! uuid env = None ∧ is_Some (users db !! userId) ∧
           Task.id task = uuid env ∧ Task.userId task = userId ∧
           TaskService.createTask env userId data db =
             (Ok task, mkDb (users db) (<[uuid env := task]> (tasks db))
                         (queries db ++ [TaskCreate (JStr userId)]))).
Proof.
  unfold TaskService.createTask, TaskRepository.create, prisma.task.create,
    bind, record, validated.
  destruct (check_data _) as [p|] eqn:Hp; simpl; [| left; by eexists].
  destruct (TaskPatch.title p) as [title|]; simpl; [| left; by eexists].
  assert (TaskPatch.userId p = Some userId) as ->.
  { unfold check_data in Hp. simpl in Hp.
    repeat case_match; simplify_eq; done. }
  simpl.
  destruct (tasks db !! uuid env) eqn:Hfree; simpl; [left; by eexists |].
  destruct (users db !! userId) eqn:Hu; simpl; [| left; by eexists].
  right. eexists. split; [done |]. split; [by eexists |]. by repeat split.
Qed.

Lemma head_filter_None {A} (P : A → Prop) `{!∀ x, Decision (P x)} (l : list A) :
  head (filter P l) = None ↔ ∀ x, x ∈ l → ¬ P x.
Proof.
  rewrite head_None. split.
  - intros Hnil x Hin HP. by apply (filter_nil_not_elem_of P l x).
  - intros Hno. destruct (filter P l) as [|y l'] eqn:Hf; [done |].
    assert (y ∈ filter P l) as Hy by (rewrite Hf; left).
    apply list_elem_of_filter in Hy as [HP Hin]. by destruct (Hno y).
Qed.

Lemma createUser_effect env data db :
  (∃ e, (UserService.createUser env data db).1 = Throw e ∧
        same_tables db (UserService.createUser env data db).2) ∨
  (users db !! uuid env = None ∧
   (∀ id user, users db !! id = Some user →
               User.email user ≠ CreateUserBody.email data) ∧
   let user := User.mk (uuid env) (CreateUserBody.email data)
                 (CreateUserBody.name data) (now env) (now env) in
   UserService.createUser env data db =
     (Ok user,
      mkDb (<[uuid env := user]> (users db)) (tasks db)
        (queries db ++ [UserFindUnique (WhereEmail (CreateUserBody.email data));
                        UserCreate (CreateUserBody.email data)]))).
Proof.
  unfold UserService.createUser, bind. rewrite findByEmail_run.
  destruct (head (filter _ (rows (users db)))) as [found|] eqn:Hfound;
    [left; by eexists |].
  unfold UserRepository.create, prisma.user.create, bind, record. simpl.
  rewrite Hfound.
  destruct (users db !! uuid env) eqn:Hfree; simpl; [left; by eexists |].
  right. split; [done |]. split.
  - intros id user Hsome. apply (proj1 (head_filter_None _ _) Hfound).
    apply elem_of_rows. by exists id.
  - simpl. by rewrite <- app_assoc.
Qed.

Lemma guarded_write_Throw env taskId userId db run e :
  guarded_write env taskId userId db run → run.1 = Throw e → same_tables db run.2.
Proof.
  intros [(e' & _ & Hsame) | (task & p & _ & _ & _ & Hok & _)] Hthrow; [done |].
  congruence.
Qed.

(** X3: a write that throws has written nothing.  Whatever the
    arguments, when [createTask], [updateTask], [deleteTask],
    [archiveTask] or [createUser] ends in an error, both tables are as
    they were before the call. *)
Theorem failed_writes_leave_the_tables
    (env : Env) (taskId userId : string) (body : CreateTaskBody.t)
    (patch : UpdateTaskBody.t) (user : CreateUserBody.t) (db : Db) :
  (∀ e db', TaskService.createTask env userId body db = (Throw e, db') →
            same_tables db db') ∧
  (∀ e db', TaskService.updateTask env taskId userId patch db = (Throw e, db') →
            same_tables db db') ∧
  (∀ e db', TaskService.deleteTask taskId userId db = (Throw e, db') →
            same_tables db db') ∧
  (∀ e db', TaskService.archiveTask env taskId userId db = (Throw e, db') →
            same_tables db db') ∧
  (∀ e db', UserService.createUser env user db = (Throw e, db') →
            same_tables db db').
Proof.
  split; [| split; [| split; [| split]]]; intros e db' Hrun.
  - destruct (createTask_effect env userId body db)
      as [(e' & _ & Hsame) | (task & _ & _ & _ & _ & Hok)];
      [by rewrite Hrun in Hsame | congruence].
  - pose proof (updateTask_guarded env taskId userId patch db) as Hg.
    rewrite Hrun in Hg. by apply (guarded_write_Throw _ _ _ _ _ e) in Hg.
  - destruct (deleteTask_effect taskId userId db)
      as [(e' & _ & Hsame) | (task & _ & _ & Hok)];
      [by rewrite Hrun in Hsame | congruence].
  - pose proof (archiveTask_guarded env taskId userId db) as Hg.
    rewrite Hrun in Hg. by apply (guarded_write_Throw _ _ _ _ _ e) in Hg.
  - destruct (createUser_effect env user db)
      as [(e' & _ & Hsame) | (_ & _ & Hok)];
      [by rewrite Hrun in Hsame | simpl in Hok; congruence].
Qed.

Lemma failed_writes_leave_the_tables_witness :
  (TaskService.updateTask Fixture.env Fixture.t1_id Fixture.alice_id
     (UpdateTaskBody.mk (JStr "renamed") JUndefined (JStr "BOGUS")) Fixture.db).1
    = Throw (PrismaError PrismaClientValidationError) ∧
  same_tables Fixture.db
    (TaskService.updateTask Fixture.env Fixture.t1_id Fixture.alice_id
       (UpdateTaskBody.mk (JStr "renamed") JUndefined (JStr "BOGUS")) Fixture.db).2.
Proof.
  split; [vm_compute; reflexivity |].
  destruct (failed_writes_leave_the_tables Fixture.env Fixture.t1_id Fixture.alice_id
              (CreateTaskBody.mk JUndefined JUndefined JUndefined)
              (UpdateTaskBody.mk (JStr "renamed") JUndefined (JStr "BOGUS"))
              (CreateUserBody.mk "" "") Fixture.db) as (_ & Hupdate & _).
  apply (Hupdate (PrismaError PrismaClientValidationError)).
  vm_compute. reflexivity.
Defined.

Lemma guarded_write_other env taskId userId db run k t :
  guarded_write env taskId userId db run →
  tasks db !! k = Some t → Task.userId t ≠ userId →
  tasks run.2 !! k = Some t.
Proof.
  intros [(e & _ & _ & ->) | (task & p & Hsome & Hown & _ & _ & _ & ->)] Hk Hne;
    [done |].
  rewrite lookup_insert_ne; [done |]. intros <-. congruence.
Qed.

(** X4: no write of a caller reaches a task of another user.  A task
    stored with an owner other than [userId] is stored unchanged after
    [updateTask], [deleteTask], [archiveTask] and [createTask] run for
    [userId], whatever id, body or generated key they are given. *)
Theorem writes_spare_the_tasks_of_others
    (env : Env) (taskId userId : string) (body : CreateTaskBody.t)
    (patch : UpdateTaskBody.t) (db : Db) (k : string) (t : Task.t) :
  tasks db !! k = Some t →
  Task.userId t ≠ userId →
  tasks (TaskService.updateTask env taskId userId patch db).2 !! k = Some t ∧
  tasks (TaskService.deleteTask taskId userId db).2 !! k = Some t ∧
  tasks (TaskService.archiveTask env taskId userId db).2 !! k = Some t ∧
  tasks (TaskService.createTask env userId body db).2 !! k = Some t.
Proof.
  intros Hk Hne. split; [| split; [| split]].
  - by apply (guarded_write_other env taskId userId db _ k t
                (updateTask_guarded env taskId userId patch db)).
  - destruct (deleteTask_effect taskId userId db)
      as [(e & _ & _ & ->) | (task & Hsome & Hown & ->)]; [done |].
    simpl. rewrite lookup_delete_ne; [done |]. intros <-. congruence.
  - by apply (guarded_write_other env taskId userId db _ k t
                (archiveTask_guarded env taskId userId db)).
  - destruct (createTask_effect env userId body db)
      as [(e & _ & _ & ->) | (task & Hfree & _ & _ & _ & ->)]; [done |].
    simpl. rewrite lookup_insert_ne; [done |]. intros <-. congruence.
Qed.

Lemma writes_spare_the_tasks_of_others_witness :
  tasks (TaskService.deleteTask Fixture.t3_id Fixture.alice_id Fixture.db).2
    !! Fixture.t3_id = Some Fixture.t3 ∧
  tasks (TaskService.updateTask Fixture.env Fixture.t3_id Fixture.alice_id
           (UpdateTaskBody.mk (JStr "mine now") JUndefined JUndefined) Fixture.db).2
    !! Fixture.t3_id = Some Fixture.t3.
Proof.
  destruct (writes_spare_the_tasks_of_others Fixture.env Fixture.t3_id
              Fixture.alice_id (CreateTaskBody.mk JUndefined JUndefined JUndefined)
              (UpdateTaskBody.mk (JStr "mine now") JUndefined JUndefined)
              Fixture.db Fixture.t3_id Fixture.t3)
    as (Hupdate & Hdelete & _);
    [vm_compute; reflexivity | vm_compute; discriminate |].
  by split.
Defined.

(** X5: the owner, the identifier and the creation time of a task are
    fixed.  Whatever [updateTask] and [archiveTask] are given, a task
    stored before the call is still stored after it, with the owner, id
    and [createdAt] it had. *)
Theorem owner_id_and_creation_time_are_fixed
    (env : Env) (taskId userId : string) (patch : UpdateTaskBody.t)
    (db : Db) (k : string) (t : Task.t) :
  tasks db !! k = Some t →
  (∃ t', tasks (TaskService.updateTask env taskId userId patch db).2 !! k = Some t' ∧
         Task.userId t' = Task.userId t ∧
         Task.id t' = Task.id t ∧
         Task.createdAt t' = Task.createdAt t) ∧
  (∃ t', tasks (TaskService.archiveTask env taskId userId db).2 !! k = Some t' ∧
         Task.userId t' = Task.userId t ∧
         Task.id t' = Task.id t ∧
         Task.createdAt t' = Task.createdAt t).
Proof.
  intros Hk.
  assert (∀ run, guarded_write env taskId userId db run →
                 ∃ t', tasks run.2 !! k = Some t' ∧
                       Task.userId t' = Task.userId t ∧
                       Task.id t' = Task.id t ∧
                       Task.createdAt t' = Task.createdAt t) as Hfix.
  { intros run [(e & _ & _ & ->) | (task & p & Hsome & _ & Hp & _ & _ & ->)];
      [by exists t |].
    destruct (decide (k = taskId)) as [-> | Hne].
    - rewrite lookup_insert_eq. eexists. split; [done |].
      rewrite Hsome in Hk. injection Hk as ->.
      unfold prisma.task.apply_patch. simpl. by rewrite Hp.
    - rewrite lookup_insert_ne; [| done]. by exists t. }
  split.
  - apply Hfix, updateTask_guarded.
  - apply Hfix, archiveTask_guarded.
Qed.

Lemma owner_id_and_creation_time_are_fixed_witness :
  ∃ t', tasks (TaskService.updateTask Fixture.env Fixture.t1_id Fixture.alice_id
                 (UpdateTaskBody.mk (JStr "renamed") JNull (JStr "DONE"))
                 Fixture.db).2 !! Fixture.t1_id = Some t' ∧
        Task.title t' = "renamed" ∧
        Task.userId t' = Fixture.alice_id ∧
        Task.id t' = Fixture.t1_id ∧
        Task.createdAt t' = 10.
Proof.
  pose proof (owner_id_and_creation_time_are_fixed Fixture.env Fixture.t1_id
                Fixture.alice_id
                (UpdateTaskBody.mk (JStr "renamed") JNull (JStr "DONE"))
                Fixture.db Fixture.t1_id Fixture.t1) as Hfix.
  destruct Hfix as [(t' & Hrow & Hu & Hi & Hc) _]; [vm_compute; reflexivity |].
  exists t'. split; [done |]. split; [| done].
  assert (tasks (TaskService.updateTask Fixture.env Fixture.t1_id Fixture.alice_id
                   (UpdateTaskBody.mk (JStr "renamed") JNull (JStr "DONE"))
                   Fixture.db).2 !! Fixture.t1_id
          = Some (Task.mk Fixture.t1_id "renamed" None DONE Fixture.alice_id 10 99))
    as Heval by (vm_compute; reflexivity).
  rewrite Heval in Hrow. by injection Hrow as <-.
Defined.

(** ** Creating a task, then reading *)

Lemma createTask_inv env userId data db task db' :
  TaskService.createTask env userId data db = (Ok task, db') →
  tasks db !! uuid env = None ∧
  is_Some (users db !! userId) ∧
  CreateTaskBody.title data = JStr (Task.title task) ∧
  check_status (js_or (CreateTaskBody.status data) (JStr (TaskStatus_name TODO)))
    = Some (Some (Task.status task)) ∧
  task = Task.mk (uuid env) (Task.title task)
           (match CreateTaskBody.description data with
            | JStr s => Some s
            | _ => None
            end)
           (Task.status task) userId (now env) (now env) ∧
  db' = mkDb (users db) (<[uuid env := task]> (tasks db))
          (queries db ++ [TaskCreate (JStr userId)]).
Proof.
  unfold TaskService.createTask, TaskRepository.create, prisma.task.create,
    bind, record, validated, check_data.
  cbn [TaskData.title TaskData.description TaskData.status TaskData.userId].
  destruct (CreateTaskBody.title data) as [| |title]; simpl; try discriminate.
  { destruct (check_nullable _), (check_status _); simpl; discriminate. }
  destruct (check_status _) as [[st|]|] eqn:Hst.
  - destruct (CreateTaskBody.description data) as [| |d]; simpl;
      (destruct (tasks db !! uuid env) eqn:Hfree; simpl; [discriminate |]);
      (destruct (users db !! userId) eqn:Hu; simpl; [| discriminate]);
      intros [= <- <-]; simpl; (split; [done |]); (split; [by eexists |]); done.
  - intros _. exfalso. unfold js_or in Hst.
    destruct (truthy (CreateTaskBody.status data)) eqn:Ht; [| done].
    destruct (CreateTaskBody.status data) as [| |s]; try done.
    simpl in Hst. by destruct (TaskStatus_parse s).
  - by destruct (CreateTaskBody.description data).
Qed.

(** X6: what [createTask] returns is one new row and nothing else.  The
    task has the generated key as id and the clock's reading as both
    timestamps; its title is the string of the body; its description is
    the body's, or [NULL] when the body has none or [null]; its status
    is the body's, or [TODO] when the body's is falsy ([null] and the
    empty string included); its owner is [userId], who is a stored
    user.  The generated key was unused before and the table of tasks
    afterwards is the table before with the task inserted under that
    key: every stored task is kept, no other row appears, and the users
    are untouched. *)
Theorem createTask_adds_one_row
    (env : Env) (userId : string) (data : CreateTaskBody.t)
    (db db' : Db) (task : Task.t) :
  TaskService.createTask env userId data db = (Ok task, db') →
  Task.id task = uuid env ∧
  Task.createdAt task = now env ∧
  Task.updatedAt task = now env ∧
  CreateTaskBody.title data = JStr (Task.title task) ∧
  Task.description task = (match CreateTaskBody.description data with
                           | JStr s => Some s
                           | _ => None
                           end) ∧
  (truthy (CreateTaskBody.status data) = false → Task.status task = TODO) ∧
  (∀ st, CreateTaskBody.status data = JStr (TaskStatus_name st) →
         Task.status task = st) ∧
  tasks db' !! uuid env = Some task ∧
  (∀ k t, tasks db !! k = Some t → tasks db' !! k = Some t) ∧
  users db' = users db ∧
  Task.userId task = userId ∧
  is_Some (users db !! userId) ∧
  tasks db !! uuid env = None ∧
  tasks db' = <[uuid env := task]> (tasks db) ∧
  (∀ k, k ≠ uuid env → tasks db' !! k = tasks db !! k).
Proof.
  intros (Hfree & Huser & Htitle & Hst & Htask & ->)%createTask_inv.
  assert (Task.userId task = userId) as Hown by (by rewrite Htask).
  rewrite Htask at 1 2 3 5. simpl.
  split; [done |]. split; [done |]. split; [done |]. split; [done |].
  split; [done |]. split; [| split; [| split; [| split; [| split; [done |]]]]].
  - intros Hfalsy. unfold js_or in Hst. rewrite Hfalsy in Hst. by injection Hst.
  - intros st Hbody. rewrite Hbody in Hst. unfold js_or in Hst.
    replace (truthy (JStr (TaskStatus_name st))) with true in Hst by by destruct st.
    simpl in Hst. rewrite TaskStatus_parse_name in Hst. by injection Hst.
  - apply lookup_insert_eq.
  - intros k t Hk. rewrite lookup_insert_ne; [done |]. intros <-. congruence.
  - split; [done |]. split; [done |]. split; [done |]. split; [done |].
    intros k Hne. by rewrite lookup_insert_ne.
Qed.

Lemma createTask_adds_one_row_witness :
  ∃ task db',
    TaskService.createTask Fixture.env Fixture.bob_id
      (CreateTaskBody.mk (JStr "T4") JNull (JStr "")) Fixture.db = (Ok task, db') ∧
    Task.id task = Fixture.free_id ∧
    Task.description task = None ∧
    Task.status task = TODO ∧
    tasks db' !! Fixture.t1_id = Some Fixture.t1 ∧
    tasks Fixture.db !! Fixture.free_id = None ∧
    tasks db' = <[Fixture.free_id := task]> (tasks Fixture.db).
Proof.
  eexists _, _. split; [vm_compute; reflexivity |].
  edestruct (createTask_adds_one_row Fixture.env Fixture.bob_id
               (CreateTaskBody.mk (JStr "T4") JNull (JStr "")) Fixture.db)
    as (Hid & _ & _ & _ & Hd & Hs & _ & _ & Hkeep & _ & _ & _ & Hfree & Hrows & _);
    [vm_compute; reflexivity |].
  split; [exact Hid |]. split; [exact Hd |]. split; [by apply Hs |].
  split; [apply Hkeep; vm_compute; reflexivity |].
  split; [exact Hfree | exact Hrows].
Defined.

(** X7: a task that has been created can be read back: [getTaskById]
    on its id returns it to the user it was created for, and throws
    Forbidden for anyone else. *)
Theorem createTask_then_getTaskById
    (env : Env) (userId : string) (data : CreateTaskBody.t)
    (db db' : Db) (task : Task.t) :
  TaskService.createTask env userId data db = (Ok task, db') →
  (TaskService.getTaskById (Task.id task) userId db').1 = Ok task ∧
  (∀ other, other ≠ userId →
     (TaskService.getTaskById (Task.id task) other db').1 =
       Throw (ForbiddenError "You do not have access to this task")).
Proof.
  intros (_ & _ & _ & _ & Htask & ->)%createTask_inv.
  assert (Task.id task = uuid env ∧ Task.userId task = userId) as [Hid Hown]
    by (by rewrite Htask).
  rewrite Hid. split.
  - rewrite getTaskById_run. simpl. rewrite lookup_insert_eq.
    apply negb_eqb_false in Hown. by rewrite Hown.
  - intros other Hne. rewrite getTaskById_run. simpl. rewrite lookup_insert_eq.
    assert (Task.userId task ≠ other) as Hne'%negb_eqb_true by congruence.
    by rewrite Hne'.
Qed.

Lemma createTask_then_getTaskById_witness :
  ∃ task db',
    TaskService.createTask Fixture.env Fixture.bob_id
      (CreateTaskBody.mk (JStr "T4") JUndefined JUndefined) Fixture.db = (Ok task, db') ∧
    (TaskService.getTaskById (Task.id task) Fixture.bob_id db').1 = Ok task ∧
    (TaskService.getTaskById (Task.id task) Fixture.alice_id db').1 =
      Throw (ForbiddenError "You do not have access to this task").
Proof.
  eexists _, _. split; [vm_compute; reflexivity |].
  edestruct (createTask_then_getTaskById Fixture.env Fixture.bob_id
               (CreateTaskBody.mk (JStr "T4") JUndefined JUndefined) Fixture.db)
    as [Hget Hothers]; [vm_compute; reflexivity |].
  split; [exact Hget |]. apply Hothers. vm_compute; discriminate.
Defined.

Lemma getTasks_all_run userId db :
  TaskService.getTasks userId None db =
    (Ok (merge_sort (createdAt_order desc)
           (filter (matches userId None) (rows (tasks db)))),
     logged (TaskFindMany userId) db).
Proof. unfold TaskService.getTasks. by rewrite findByUserId_run. Qed.

Lemma elem_of_rows_insert {V} (m : gmap string V) k v x :
  m !! k = None → x ∈ rows (<[k := v]> m) ↔ x = v ∨ x ∈ rows m.
Proof.
  intros Hfree. rewrite !elem_of_rows. split.
  - intros [k' Hk']. destruct (decide (k' = k)) as [-> | Hne].
    + rewrite lookup_insert_eq in Hk'. left. congruence.
    + rewrite lookup_insert_ne in Hk'; [| done]. right. by exists k'.
  - intros [-> | [k' Hk']].
    + exists k. apply lookup_insert_eq.
    + exists k'. rewrite lookup_insert_ne; [done |]. intros <-. congruence.
Qed.

(** X8: a created task joins the listing of its owner and of nobody
    else.  After [createTask] for [userId], the unfiltered listing of
    [userId] is the listing before together with the new task, once;
    the unfiltered listing of any other caller is the listing before,
    both up to the order of the tasks. *)
Theorem createTask_then_getTasks
    (env : Env) (userId : string) (data : CreateTaskBody.t)
    (db db' : Db) (task : Task.t) (caller : string) :
  TaskService.createTask env userId data db = (Ok task, db') →
  ∃ before after,
    (TaskService.getTasks caller None db).1 = Ok before ∧
    (TaskService.getTasks caller None db').1 = Ok after ∧
    (∀ t, t ∈ after ↔ t ∈ before ∨ (t = task ∧ caller = userId)) ∧
    (caller = userId → after ≡ₚ task :: before) ∧
    (caller ≠ userId → after ≡ₚ before).
Proof.
  intros (Hfree & _ & _ & _ & Htask & ->)%createTask_inv.
  assert (Task.userId task = userId) as Hown by (by rewrite Htask).
  eexists _, _. rewrite !getTasks_all_run. split; [done |]. split; [done |].
  simpl.
  assert (filter (matches caller None) (rows (<[uuid env := task]> (tasks db)))
            ≡ₚ filter (matches caller None) (task :: rows (tasks db))) as Hrows.
  { unfold rows. by rewrite (map_to_list_insert _ _ _ Hfree). }
  split; [| split].
  - intros t. rewrite !merge_sort_Permutation, !list_elem_of_filter.
    rewrite (elem_of_rows_insert _ _ _ _ Hfree). unfold matches. split.
    + intros [[Hu _] [-> | Hin]]; [right; split; congruence | by left].
    + intros [[[Hu _] Hin] | [-> <-]]; split; try done; [by right | by left].
  - intros ->. rewrite !merge_sort_Permutation, Hrows.
    rewrite filter_cons_True; [done |]. by split.
  - intros Hne. rewrite !merge_sort_Permutation, Hrows.
    rewrite filter_cons_False; [done |]. intros [Hu _]. congruence.
Qed.

Lemma createTask_then_getTasks_witness :
  ∃ task db' after,
    TaskService.createTask Fixture.env Fixture.bob_id
      (CreateTaskBody.mk (JStr "T4") JUndefined JUndefined) Fixture.db = (Ok task, db') ∧
    (TaskService.getTasks Fixture.bob_id None db').1 = Ok after ∧
    (∀ t, t ∈ after ↔ t ∈ [Fixture.t3] ∨ (t = task ∧ Fixture.bob_id = Fixture.bob_id)) ∧
    after ≡ₚ [task; Fixture.t3].
Proof.
  edestruct (createTask_then_getTasks Fixture.env Fixture.bob_id
               (CreateTaskBody.mk (JStr "T4") JUndefined JUndefined) Fixture.db)
    as (before & after & Hbefore & Hafter & Hiff & Hperm & _);
    [vm_compute; reflexivity |].
  eexists _, _, after. split; [vm_compute; reflexivity |].
  split; [exact Hafter |].
  assert (before = [Fixture.t3]) as <-; [| split; [exact Hiff | by apply Hperm]].
  vm_compute in Hbefore. by injection Hbefore.
Defined.

(** ** Users *)

Lemma getUserById_run userId db :
  UserService.getUserById userId db =
    (match users db !! userId with
     | Some user => Ok user
     | None => Throw (NotFoundError "User")
     end, logged (UserFindUnique (WhereId userId)) db).
Proof.
  unfold UserService.getUserById, bind, UserRepository.findById,
    prisma.user.findUnique, bind, record, get_users, ret. simpl.
  by destruct (users db !! userId).
Qed.

(** X9: [getUserById] returns a user exactly when that user is stored
    under the id, throws NotFound exactly when no user is, and never
    writes to the tables. *)
Theorem getUserById_returns_the_stored_user (userId : string) (db : Db) (user : User.t) :
  ((UserService.getUserById userId db).1 = Ok user ↔ users db !! userId = Some user) ∧
  ((UserService.getUserById userId db).1 = Throw (NotFoundError "User") ↔
     users db !! userId = None) ∧
  same_tables db (UserService.getUserById userId db).2.
Proof.
  rewrite getUserById_run. simpl. split; [| split; [| done]].
  - destruct (users db !! userId); split; congruence.
  - destruct (users db !! userId); split; congruence.
Qed.

(** X10: [createUser] registers a user whenever no stored user has the
    email and the generated key is unused: the user returned has the
    email and the name of the request, is found again by
    [getUserById], the tasks and the users stored before are untouched,
    and any later [createUser] with that email throws Conflict. *)
Theorem createUser_registers_a_free_email
    (env : Env) (data : CreateUserBody.t) (db : Db) :
  (∀ id user, users db !! id = Some user →
              User.email user ≠ CreateUserBody.email data) →
  users db !! uuid env = None →
  ∃ user db',
    UserService.createUser env data db = (Ok user, db') ∧
    User.id user = uuid env ∧
    User.email user = CreateUserBody.email data ∧
    User.name user = CreateUserBody.name data ∧
    (UserService.getUserById (User.id user) db').1 = Ok user ∧
    tasks db' = tasks db ∧
    (∀ id u, users db !! id = Some u → users db' !! id = Some u) ∧
    (∀ env' name,
       (UserService.createUser env'
          (CreateUserBody.mk (CreateUserBody.email data) name) db').1 =
         Throw (ConflictError "Email already in use")).
Proof.
  intros Hemail Hfree.
  destruct (createUser_effect env data db)
    as [(e & Hthrow & _) | (_ & _ & Hrun)].
  { exfalso. revert Hthrow.
    unfold UserService.createUser, bind. rewrite findByEmail_run.
    destruct (head (filter _ (rows (users db)))) as [found|] eqn:Hfound.
    - pose proof (head_Some_elem_of _ _ Hfound) as Hin.
      apply list_elem_of_filter in Hin as [Hp Hin].
      apply elem_of_rows in Hin as [id Hid]. by destruct (Hemail id found).
    - unfold UserRepository.create, prisma.user.create, bind, record. simpl.
      by rewrite Hfound, Hfree. }
  simpl in Hrun. eexists _, _. split; [exact Hrun |]. simpl.
  split; [done |]. split; [done |]. split; [done |].
  split; [| split; [done | split]].
  - rewrite getUserById_run. simpl. by rewrite lookup_insert_eq.
  - intros id u Hid. rewrite lookup_insert_ne; [done |]. intros <-. congruence.
  - intros env' name. unfold UserService.createUser, bind. rewrite findByEmail_run.
    simpl.
    edestruct (head_filter_is_Some (λ u, User.email u = CreateUserBody.email data))
      as (found & -> & _); [| | done].
    + apply elem_of_rows. eexists. apply lookup_insert_eq.
    + done.
Qed.

Lemma createUser_registers_a_free_email_witness :
  ∃ user db',
    UserService.createUser Fixture.env
      (CreateUserBody.mk "carol@example.com" "Carol") Fixture.db = (Ok user, db') ∧
    User.id user = Fixture.free_id ∧
    (UserService.getUserById Fixture.free_id db').1 = Ok user ∧
    (UserService.createUser Fixture.env
       (CreateUserBody.mk "carol@example.com" "Another Carol") db').1 =
      Throw (ConflictError "Email already in use").
Proof.
  destruct (createUser_registers_a_free_email Fixture.env
              (CreateUserBody.mk "carol@example.com" "Carol") Fixture.db)
    as (user & db' & Hrun & Hid & _ & _ & Hget & _ & _ & Hagain).
  - intros id user Hsome Heq.
    assert (user ∈ rows (users Fixture.db)) as Hin
      by (apply elem_of_rows; by exists id).
    vm_compute in Hin.
    apply elem_of_cons in Hin as [-> | Hin]; [discriminate Heq |].
    apply elem_of_cons in Hin as [-> | Hin]; [discriminate Heq |].
    by apply elem_of_nil in Hin.
  - vm_compute; reflexivity.
  - exists user, db'. split; [done |]. split; [done |].
    split; [rewrite Hid in Hget; exact Hget |]. apply Hagain.
Defined.

(** ** The middleware and the two patterns *)

Lemma authMiddleware_tables request db :
  same_tables db (authMiddleware request db).2.
Proof.
  rewrite authMiddleware_run.
  destruct (supplied request) as [v|]; [| done].
  destruct (String.eqb v ""); [done |].
  destruct (UUID_REGEX v); [| done].
  by destruct (users db !! v).
Qed.

(** X11: whatever the request, the middleware never writes to the
    tables, asks the store at most once (a lookup of a user by primary
    key), and throws nothing but Unauthenticated errors, which carry
    status code 401. *)
Theorem authMiddleware_reads_once_and_throws_401 (request : Request.t) (db : Db) :
  same_tables db (authMiddleware request db).2 ∧
  (queries (authMiddleware request db).2 = queries db ∨
   ∃ v, queries (authMiddleware request db).2
        = (queries db ++ [UserFindUnique (WhereId v)])%list) ∧
  (∀ e, (authMiddleware request db).1 = Throw e →
        ∃ message, e = AppError 401 "UNAUTHORIZED" message).
Proof.
  rewrite authMiddleware_run.
  destruct (supplied request) as [v|].
  2:{ split; [done |]. split; [by left |]. intros e [= <-]. by eexists. }
  destruct (String.eqb v "").
  { split; [done |]. split; [by left |]. intros e [= <-]. by eexists. }
  destruct (UUID_REGEX v).
  2:{ split; [done |]. split; [by left |]. intros e [= <-]. by eexists. }
  destruct (users db !! v).
  - split; [done |]. split; [right; by exists v | done].
  - split; [done |]. split; [right; by exists v |]. intros e [= <-]. by eexists.
Qed.

Lemma elem_of_append (c : ascii) (a b : string) :
  c ∈ list_ascii_of_string (a ++ b)%string ↔
  c ∈ list_ascii_of_string a ∨ c ∈ list_ascii_of_string b.
Proof.
  induction a as [|x a IH]; simpl.
  - rewrite ?append_empty_l. split; [by right |]. intros [H | H]; [inversion H | done].
  - rewrite ?append_String. simpl. rewrite !elem_of_cons, IH. tauto.
Qed.

Lemma length_append (a b : string) :
  String.length (a ++ b)%string = (String.length a + String.length b)%nat.
Proof.
  induction a as [|x a IH]; [done |]. rewrite ?append_String. simpl. by rewrite IH.
Qed.

Lemma hex_lower_any_case c :
  hex_lower c = true ↔ hex_any_case c = true ∧ in_range "A" "F" c = false.
Proof.
  destruct c as [[] [] [] [] [] [] [] []]; vm_compute; split; try done;
    by intros [? ?].
Qed.

(** X12: the [id] pattern of the route schemas accepts exactly the
    strings the middleware's pattern accepts that have no upper-case
    letter from [A] to [F]; and every string either pattern accepts has
    36 characters. *)
Theorem id_pattern_is_the_lower_case_UUID_REGEX (s : string) :
  (id_pattern s = true ↔
     UUID_REGEX s = true ∧
     ∀ c, c ∈ list_ascii_of_string s → in_range "A" "F" c = false) ∧
  (UUID_REGEX s = true → String.length s = 36%nat).
Proof.
  unfold id_pattern, UUID_REGEX. rewrite !uuid_shape_groups. split; [split |].
  - intros (a & b & c & d & e & -> & [La Ha] & [Lb Hb] & [Lc Hc] & [Ld Hd] & [Le He]).
    split.
    + exists a, b, c, d, e. split; [done |].
      repeat split; try done; intros x Hx;
        [apply Ha in Hx | apply Hb in Hx | apply Hc in Hx | apply Hd in Hx
        | apply He in Hx]; by apply hex_lower_any_case in Hx as [? _].
    + assert (∀ x, x ∈ list_ascii_of_string "-" → in_range "A" "F" x = false) as Hdash.
      { intros x Hx. simpl in Hx. by apply list_elem_of_singleton in Hx as ->. }
      assert (∀ g, (∀ x, x ∈ list_ascii_of_string g → hex_lower x = true) →
                   ∀ x, x ∈ list_ascii_of_string g → in_range "A" "F" x = false)
        as Hgroup.
      { intros g Hg x Hx. by apply Hg, hex_lower_any_case in Hx as [_ ?]. }
      intros x Hx. rewrite !elem_of_append in Hx.
      destruct Hx as [Hx|[Hx|[Hx|[Hx|[Hx|[Hx|[Hx|[Hx|Hx]]]]]]]];
        eauto using Hdash, Hgroup.
  - intros [(a & b & c & d & e & -> & [La Ha] & [Lb Hb] & [Lc Hc] & [Ld Hd] & [Le He])
              Hlow].
    exists a, b, c, d, e. split; [done |].
    repeat split; try done; intros x Hx; apply hex_lower_any_case;
      (split; [auto |]); apply Hlow; rewrite !elem_of_append; auto 10.
  - intros (a & b & c & d & e & -> & [La _] & [Lb _] & [Lc _] & [Ld _] & [Le _]).
    rewrite !length_append, La, Lb, Lc, Ld, Le. reflexivity.
Qed.

(** ** Updating twice, and the edges of the listing *)

Lemma updated_idempotent env data task :
  updated env data (updated env data task) = updated env data task.
Proof.
  unfold updated. simpl. f_equal.
  - destruct (UpdateTaskBody.title data) as [| |s]; try done.
    by destruct (String.eqb s "").
  - by destruct (UpdateTaskBody.description data).
  - destruct (UpdateTaskBody.status data) as [| |s]; try done.
    by destruct (TaskStatus_parse s).
  - by destruct (_ || _).
Qed.

(** X13: an update can be read back and repeated.  After [updateTask]
    on a task of the caller, [getTaskById] returns the task that
    [updateTask] returned, and the same [updateTask] at the same clock
    reading returns that task again. *)
Theorem updateTask_then_read_or_repeat
    (env : Env) (taskId userId : string) (data : UpdateTaskBody.t)
    (db : Db) (task : Task.t) :
  tasks db !! taskId = Some task →
  Task.userId task = userId →
  status_or_falsy (UpdateTaskBody.status data) →
  ∃ task' db',
    TaskService.updateTask env taskId userId data db = (Ok task', db') ∧
    (TaskService.getTaskById taskId userId db').1 = Ok task' ∧
    (TaskService.updateTask env taskId userId data db').1 = Ok task'.
Proof.
  intros Hsome Hown Hst. eexists _, _.
  split; [by apply updateTask_run |].
  assert (Task.userId (updated env data task) = userId) as Hown' by done.
  split.
  - rewrite getTaskById_run. simpl. rewrite lookup_insert_eq.
    apply negb_eqb_false in Hown'. by rewrite Hown'.
  - rewrite (updateTask_run env taskId userId data _ (updated env data task));
      [| simpl; apply lookup_insert_eq | done | done].
    simpl. by rewrite updated_idempotent.
Qed.

Lemma updateTask_then_read_or_repeat_witness :
  ∃ task' db',
    TaskService.updateTask Fixture.env Fixture.t1_id Fixture.alice_id
      (UpdateTaskBody.mk (JStr "renamed") JNull (JStr "IN_PROGRESS")) Fixture.db
      = (Ok task', db') ∧
    (TaskService.getTaskById Fixture.t1_id Fixture.alice_id db').1 = Ok task' ∧
    (TaskService.updateTask Fixture.env Fixture.t1_id Fixture.alice_id
       (UpdateTaskBody.mk (JStr "renamed") JNull (JStr "IN_PROGRESS")) db').1
      = Ok task'.
Proof.
  apply (updateTask_then_read_or_repeat Fixture.env Fixture.t1_id Fixture.alice_id
           (UpdateTaskBody.mk (JStr "renamed") JNull (JStr "IN_PROGRESS"))
           Fixture.db Fixture.t1);
    [vm_compute; reflexivity | vm_compute; reflexivity |].
  right. by exists IN_PROGRESS.
Defined.

(** X14: the edges of [getTasks].  A filter whose status is the empty
    string or [null] filters nothing: the call is the call without
    filter.  A status that is not empty and names no enum value is
    refused by the store client, the call throws and returns no list.
    In every case the tables are left as they were. *)
Theorem getTasks_filter_edges (userId : string) (db : Db) :
  TaskService.getTasks userId (Some (TaskFilters.mk (JStr ""))) db
    = TaskService.getTasks userId None db ∧
  TaskService.getTasks userId (Some (TaskFilters.mk JNull)) db
    = TaskService.getTasks userId None db ∧
  (∀ s, s ≠ "" → TaskStatus_parse s = None →
        (TaskService.getTasks userId (Some (TaskFilters.mk (JStr s))) db).1
          = Throw (PrismaError PrismaClientValidationError)) ∧
  (∀ filters, same_tables db (TaskService.getTasks userId filters db).2).
Proof.
  split; [done |]. split; [done |]. split.
  - intros s Hne%String.eqb_neq Hbad.
    assert (check_status (spread_if (truthy (JStr s)) (JStr s)) = None) as Hcheck.
    { rewrite truthy_JStr, Hne. simpl. by rewrite Hbad. }
    unfold TaskService.getTasks, TaskRepository.findByUserId, prisma.task.findMany,
      bind, record, validated.
    cbn [TaskFilters.status TaskWhereInput.status TaskWhereInput.userId].
    by rewrite Hcheck.
  - intros filters.
    unfold TaskService.getTasks, TaskRepository.findByUserId, prisma.task.findMany,
      bind, record, validated. simpl.
    by destruct (check_status _) as [st|].
Qed.

Lemma getTasks_filter_edges_witness :
  (TaskService.getTasks Fixture.alice_id (Some (TaskFilters.mk (JStr "done")))
     Fixture.db).1 = Throw (PrismaError PrismaClientValidationError).
Proof.
  destruct (getTasks_filter_edges Fixture.alice_id Fixture.db) as (_ & _ & Hbad & _).
  apply Hbad; [discriminate | vm_compute; reflexivity].
Defined.

(** * The other routes *)

Lemma serve_run {A} config schema preHandler (handler : Request.t → Async (Z * A))
    request db :
  Routes.serve config schema preHandler handler request db =
    match schema request db with
    | (Ok _, db1) =>
        match preHandler request db1 with
        | (Ok request', db2) =>
            match handler request' db2 with
            | (Ok (statusCode, data), db3) => (Sent statusCode data, db3)
            | (Throw e, db3) => (Failed (errorHandler config e), db3)
            end
        | (Throw e, db2) => (Failed (errorHandler config e), db2)
        end
    | (Throw e, db1) => (Failed (errorHandler config e), db1)
    end.
Proof.
  unfold Routes.serve, bind.
  destruct (schema request db) as [[[]|e] db1]; [| done].
  destruct (preHandler request db1) as [[request'|e] db2]; [| done].
  by destruct (handler request' db2) as [[[statusCode data]|e] db3].
Qed.

Lemma authenticated_unique request db v v' :
  authenticated request db v → authenticated request db v' → v = v'.
Proof. intros [Hv _] [Hv' _]. congruence. Qed.

(** The ways a request for the task [id] can go from validation on,
    behind the schema of the id and the middleware, for a handler that
    is a guarded operation [op] of the service sending [code]. *)
Lemma task_route_outcomes {A B} config schema
    (op : string → string → Async B) (code : Z) (data : B → A) request db :
  (∀ r db0, schema r db0 =
     (if id_pattern (Request.params_id r) then Ok tt else Throw FastifyValidation, db0)) →
  let id := Request.params_id request in
  let run :=
    Routes.serve config schema authMiddleware
      (λ r, await b := match Request.userId r with
                       | Some userId => op (Request.params_id r) userId
                       | None => taskRoutes.guarded_without_caller (Request.params_id r)
                       end in
            ret (code, data b)) request db in
  (id_pattern id = false ∧
   run = (Failed (errorHandler config FastifyValidation), db)) ∨
  (id_pattern id = true ∧ (¬ ∃ v, authenticated request db v) ∧
   ∃ message db', run = (Failed (errorHandler config (UnauthorizedError message)), db') ∧
                  same_tables db db') ∨
  (∃ v, id_pattern id = true ∧ authenticated request db v ∧
        run = match op id v (logged (UserFindUnique (WhereId v)) db) with
              | (Ok b, db') => (Sent code (data b), db')
              | (Throw e, db') => (Failed (errorHandler config e), db')
              end).
Proof.
  intros Hschema id run. subst run. rewrite serve_run, Hschema. fold id.
  destruct (id_pattern id) eqn:Hid; [| by left].
  right.
  destruct (authenticated_or_not request db) as [[v Hauth] | Hno].
  - right. exists v. split; [done |]. split; [done |].
    rewrite (authMiddleware_authenticated _ _ _ Hauth). simpl. fold id.
    unfold bind. by destruct (op id v _) as [[b|e] db'].
  - left. split; [done |]. split; [done |].
    destruct (authMiddleware_unauthenticated _ _ Hno) as (message & db' & Hrun).
    pose proof (authMiddleware_tables request db) as Hsame. rewrite Hrun in Hsame.
    exists message, db'. by rewrite Hrun.
Qed.

(** [GET /tasks/:id] from validation on. *)
Lemma get_task_served config request db :
  let id := Request.params_id request in
  let run := Routes.serve config getTaskSchema authMiddleware Routes.get_handler
               request db in
  (id_pattern id = false ∧
   run = (Failed (errorHandler config FastifyValidation), db)) ∨
  (id_pattern id = true ∧ (¬ ∃ v, authenticated request db v) ∧
   ∃ message db',
     run = (Failed (errorHandler config (UnauthorizedError message)), db') ∧
     same_tables db db') ∨
  (∃ v, id_pattern id = true ∧ authenticated request db v ∧
        run =
          (match tasks db !! id with
           | None => Failed (errorHandler config (NotFoundError "Task"))
           | Some task =>
               if negb (String.eqb (Task.userId task) v)
               then Failed (errorHandler config
                              (ForbiddenError "You do not have access to this task"))
               else Sent 200 task
           end,
           logged (TaskFindUnique id) (logged (UserFindUnique (WhereId v)) db))).
Proof.
  intros id run.
  assert (∀ r db0, getTaskSchema r db0 =
            (if id_pattern (Request.params_id r) then Ok tt
             else Throw FastifyValidation, db0)) as Hschema.
  { intros r db0. unfold getTaskSchema. by destruct (id_pattern _). }
  destruct (task_route_outcomes (A := Task.t) config getTaskSchema
              TaskService.getTaskById 200 (λ t, t) request db Hschema)
    as [H400 | [H401 | (v & Hid & Hauth & Hrun)]];
    [left; exact H400 | right; left; exact H401 |].
  right; right. exists v. split; [done |]. split; [done |].
  subst run.
  change (Routes.serve config getTaskSchema authMiddleware Routes.get_handler
            request db) with
    (Routes.serve config getTaskSchema authMiddleware
       (λ r, await b := match Request.userId r with
                        | Some userId =>
                            TaskService.getTaskById (Request.params_id r) userId
                        | None =>
                            taskRoutes.guarded_without_caller (Request.params_id r)
                        end in
             ret (200, b)) request db).
  rewrite Hrun, getTaskById_run. subst id. simpl.
  destruct (tasks db !! Request.params_id request) as [task|]; [| done].
  by destruct (negb _).
Qed.

(** X16: [GET /tasks/:id].  A request the rate limiter rejects gets the
    limiter's error through the error handler and the store is not
    asked.  The route sends 200 with a task exactly when the limiter
    lets the request through, the id has the pattern of the schema, the
    request is authenticated and that task is stored under the id with
    the authenticated user as owner.  Past the limiter, an id without
    the pattern is answered 400 before the credential is looked at, a
    request that is not authenticated 401, an id that no task has 404,
    and the task of another user 403.  The route never writes to the
    tables. *)
Theorem get_task_route_replies
    (config : Config) (rateLimit : Stage) (request : Request.t) (db : Db)
    (task : Task.t) :
  let id := Request.params_id request in
  let run := Routes.get_task config rateLimit request db in
  (∀ e, rateLimit request = Throw e →
        run = (Failed (errorHandler config e), db)) ∧
  (run.1 = Sent 200 task ↔
     rateLimit request = Ok tt ∧
     id_pattern id = true ∧
     ∃ v, authenticated request db v ∧
          tasks db !! id = Some task ∧
          Task.userId task = v) ∧
  (rateLimit request = Ok tt →
     (id_pattern id = false →
        run = (Failed (errorHandler config FastifyValidation), db)) ∧
     (id_pattern id = true → (¬ ∃ v, authenticated request db v) →
        Outcome_code run.1 = 401) ∧
     (∀ v, id_pattern id = true → authenticated request db v →
           tasks db !! id = None → Outcome_code run.1 = 404) ∧
     (∀ v other, id_pattern id = true → authenticated request db v →
                 tasks db !! id = Some other → Task.userId other ≠ v →
                 Outcome_code run.1 = 403)) ∧
  same_tables db run.2.
Proof.
  intros id run. subst run. unfold Routes.get_task, Routes.behind.
  destruct (rateLimit request) as [[]|e] eqn:Hlimit; simpl.
  2:{ split; [by intros e' [= <-] |]. split; [| done].
      split; [done | by intros [? _]]. }
  split; [done |].
  destruct (get_task_served config request db)
    as [[Hid ->] | [(Hid & Hno & message & db' & -> & Hsame)
                   | (v & Hid & Hauth & ->)]]; fold id in Hid |- *; simpl.
  - split; [| split; [| done]].
    + split; [done |]. intros (_ & Hid' & _). congruence.
    + intros _. split; [done |].
      split; [intros Hid'; congruence |].
      split; intros; congruence.
  - split; [| split; [| done]].
    + split; [done |]. intros (_ & _ & v & Hauth & _). destruct Hno. by exists v.
    + intros _. split; [intros Hid'; congruence |]. split; [done |].
      split; [intros v _ Hauth _ | intros v other _ Hauth _ _];
        destruct Hno; by exists v.
  - split; [| split; [| done]].
    + destruct (tasks db !! id) as [stored|] eqn:Hstored.
      * destruct (negb _) eqn:Hown.
        -- apply negb_eqb_true in Hown. split; [done |].
           intros (_ & _ & v' & Hauth' & [= ->] & Hv').
           by rewrite (authenticated_unique _ _ _ _ Hauth Hauth') in Hown.
        -- apply negb_eqb_false in Hown. split.
           ++ intros [= ->]. split; [done |]. split; [done |]. by exists v.
           ++ by intros (_ & _ & v' & _ & [= ->] & _).
      * split; [done |]. by intros (_ & _ & v' & _ & ? & _).
    + intros _. split; [intros Hid'; congruence |].
      split; [intros _ Hno; destruct Hno; by exists v |].
      split.
      * intros v' _ _ ->. reflexivity.
      * intros v' other _ Hauth' -> Hne.
        rewrite <- (authenticated_unique _ _ _ _ Hauth Hauth') in Hne.
        apply negb_eqb_true in Hne. by rewrite Hne.
Qed.

Lemma get_task_route_replies_witness :
  (Routes.get_task Fixture.config Fixture.pass
     (Fixture.request (Some Fixture.alice_id) None Fixture.t1_id) Fixture.db).1
    = Sent 200 Fixture.t1 ∧
  Outcome_code
    (Routes.get_task Fixture.config Fixture.pass
       (Fixture.request (Some Fixture.bob_id) None Fixture.t1_id) Fixture.db).1 = 403 ∧
  Outcome_code
    (Routes.get_task Fixture.config Fixture.too_many
       (Fixture.request (Some Fixture.alice_id) None Fixture.t1_id) Fixture.db).1 = 429.
Proof.
  split; [| split].
  - apply (get_task_route_replies Fixture.config Fixture.pass
             (Fixture.request (Some Fixture.alice_id) None Fixture.t1_id)
             Fixture.db Fixture.t1).
    split; [reflexivity |]. split; [vm_compute; reflexivity |].
    exists Fixture.alice_id.
    split; [| split; vm_compute; reflexivity].
    split; [vm_compute; reflexivity |].
    split; [apply UUID_REGEX_hyphenated_hex; vm_compute; reflexivity |].
    eexists; vm_compute; reflexivity.
  - destruct (get_task_route_replies Fixture.config Fixture.pass
                (Fixture.request (Some Fixture.bob_id) None Fixture.t1_id)
                Fixture.db Fixture.t1) as (_ & _ & Hpast & _).
    destruct (Hpast eq_refl) as (_ & _ & _ & H403).
    apply (H403 Fixture.bob_id Fixture.t1);
      [vm_compute; reflexivity | | vm_compute; reflexivity | vm_compute; discriminate].
    split; [vm_compute; reflexivity |].
    split; [apply UUID_REGEX_hyphenated_hex; vm_compute; reflexivity |].
    eexists; vm_compute; reflexivity.
  - destruct (get_task_route_replies Fixture.config Fixture.too_many
                (Fixture.request (Some Fixture.alice_id) None Fixture.t1_id)
                Fixture.db Fixture.t1) as (Hlimit & _).
    by rewrite (Hlimit _ eq_refl).
Defined.

Lemma deleteTask_cases taskId userId db :
  TaskService.deleteTask taskId userId db =
    match tasks db !! taskId with
    | None => (Throw (NotFoundError "Task"), logged (TaskFindUnique taskId) db)
    | Some task =>
        if negb (String.eqb (Task.userId task) userId)
        then (Throw (ForbiddenError "You do not have access to this task"),
              logged (TaskFindUnique taskId) db)
        else (Ok tt,
              mkDb (users db) (base.delete taskId (tasks db))
                (queries db ++ [TaskFindUnique taskId; TaskDelete taskId]))
    end.
Proof.
  destruct (tasks db !! taskId) as [task|] eqn:Hsome.
  - destruct (negb _) eqn:Hown.
    + unfold TaskService.deleteTask, bind. by rewrite findById_run, Hsome, Hown.
    + apply negb_eqb_false in Hown. by apply (deleteTask_run _ _ _ task).
  - unfold TaskService.deleteTask, bind. by rewrite findById_run, Hsome.
Qed.

(** [DELETE /tasks/:id] from validation on. *)
Lemma delete_task_served config request db :
  let id := Request.params_id request in
  let run := Routes.serve config deleteTaskSchema authMiddleware Routes.delete_handler
               request db in
  (id_pattern id = false ∧
   run = (Failed (errorHandler config FastifyValidation), db)) ∨
  (id_pattern id = true ∧ (¬ ∃ v, authenticated request db v) ∧
   ∃ message db',
     run = (Failed (errorHandler config (UnauthorizedError message)), db') ∧
     same_tables db db') ∨
  (∃ v, id_pattern id = true ∧ authenticated request db v ∧
        run =
          match tasks db !! id with
          | None =>
              (Failed (errorHandler config (NotFoundError "Task")),
               logged (TaskFindUnique id) (logged (UserFindUnique (WhereId v)) db))
          | Some task =>
              if negb (String.eqb (Task.userId task) v)
              then (Failed (errorHandler config
                              (ForbiddenError "You do not have access to this task")),
                    logged (TaskFindUnique id)
                      (logged (UserFindUnique (WhereId v)) db))
              else (Sent 204 tt,
                    mkDb (users db) (base.delete id (tasks db))
                      (queries db ++ [UserFindUnique (WhereId v);
                                      TaskFindUnique id; TaskDelete id])%list)
          end).
Proof.
  intros id run.
  assert (∀ r db0, deleteTaskSchema r db0 =
            (if id_pattern (Request.params_id r) then Ok tt
             else Throw FastifyValidation, db0)) as Hschema.
  { intros r db0. unfold deleteTaskSchema. by destruct (id_pattern _). }
  destruct (task_route_outcomes (A := unit) config deleteTaskSchema
              TaskService.deleteTask 204 (λ _, tt) request db Hschema)
    as [H400 | [H401 | (v & Hid & Hauth & Hrun)]];
    [left; exact H400 | right; left; exact H401 |].
  right; right. exists v. split; [done |]. split; [done |].
  subst run.
  change (Routes.serve config deleteTaskSchema authMiddleware Routes.delete_handler
            request db) with
    (Routes.serve config deleteTaskSchema authMiddleware
       (λ r, await b := match Request.userId r with
                        | Some userId =>
                            TaskService.deleteTask (Request.params_id r) userId
                        | None =>
                            taskRoutes.guarded_without_caller (Request.params_id r)
                        end in
             ret (204, tt)) request db).
  rewrite Hrun, deleteTask_cases. subst id. simpl.
  destruct (tasks db !! Request.params_id request) as [task|]; [| done].
  destruct (negb _); [done |]. simpl. by rewrite <- app_assoc.
Qed.

(** X17: [DELETE /tasks/:id].  A request the rate limiter rejects, or
    one whose body the content-type parser rejects, gets that error
    through the error handler, and the store is not asked.  The route
    sends 204 exactly when both let the request through, the id has the
    pattern of the schema, the request is authenticated and a task of
    the authenticated user is stored under the id; that task is then
    removed and nothing else.  Past the two stages, an id without the
    pattern is answered 400 before the credential is looked at, a
    request that is not authenticated 401, an id that no task has 404,
    and the task of another user 403.  Whenever the reply is not 204
    both tables are as they were. *)
Theorem delete_task_route_replies
    (config : Config) (rateLimit parser : Stage) (request : Request.t) (db : Db) :
  let id := Request.params_id request in
  let run := Routes.delete_task config rateLimit parser request db in
  (∀ e, rateLimit request = Throw e →
        run = (Failed (errorHandler config e), db)) ∧
  (∀ e, rateLimit request = Ok tt → parser request = Throw e →
        run = (Failed (errorHandler config e), db)) ∧
  (run.1 = Sent 204 tt ↔
     rateLimit request = Ok tt ∧ parser request = Ok tt ∧
     id_pattern id = true ∧
     ∃ v task, authenticated request db v ∧
               tasks db !! id = Some task ∧
               Task.userId task = v) ∧
  (run.1 = Sent 204 tt →
     tasks run.2 = base.delete id (tasks db) ∧ users run.2 = users db) ∧
  (run.1 ≠ Sent 204 tt → same_tables db run.2) ∧
  (rateLimit request = Ok tt → parser request = Ok tt →
     (id_pattern id = false →
        run = (Failed (errorHandler config FastifyValidation), db)) ∧
     (id_pattern id = true → (¬ ∃ v, authenticated request db v) →
        Outcome_code run.1 = 401) ∧
     (∀ v, id_pattern id = true → authenticated request db v →
           tasks db !! id = None → Outcome_code run.1 = 404) ∧
     (∀ v other, id_pattern id = true → authenticated request db v →
                 tasks db !! id = Some other → Task.userId other ≠ v →
                 Outcome_code run.1 = 403)).
Proof.
  intros id run. subst run. unfold Routes.delete_task, Routes.behind.
  destruct (rateLimit request) as [[]|e] eqn:Hlimit; simpl.
  2:{ split; [by intros e' [= <-] |]. split; [done |].
      split; [split; [done | by intros [? _]] |]. done. }
  split; [done |].
  destruct (parser request) as [[]|e] eqn:Hparser; simpl.
  2:{ split; [by intros e' _ [= <-] |].
      split; [split; [done | by intros (_ & ? & _)] |]. done. }
  split; [done |].
  destruct (delete_task_served config request db)
    as [[Hid ->] | [(Hid & Hno & message & db' & -> & Hsame)
                   | (v & Hid & Hauth & ->)]]; fold id in Hid |- *; simpl.
  - split; [| split; [done | split; [done |]]].
    + split; [done |]. intros (_ & _ & Hid' & _). congruence.
    + intros _ _. split; [done |].
      split; [intros Hid'; congruence |].
      split; intros; congruence.
  - split; [| split; [done | split; [done |]]].
    + split; [done |]. intros (_ & _ & _ & v & task & Hauth & _).
      destruct Hno. by exists v.
    + intros _ _. split; [intros Hid'; congruence |]. split; [done |].
      split; [intros v _ Hauth _ | intros v other _ Hauth _ _];
        destruct Hno; by exists v.
  - destruct (tasks db !! id) as [stored|] eqn:Hstored.
    + destruct (negb _) eqn:Hown; simpl.
      * pose proof Hown as Hne. apply negb_eqb_true in Hne.
        split; [| split; [done | split; [done |]]].
        -- split; [done |].
           intros (_ & _ & _ & v' & task & Hauth' & [= ->] & Hv').
           by rewrite (authenticated_unique _ _ _ _ Hauth Hauth') in Hne.
        -- intros _ _. split; [intros Hid'; congruence |].
           split; [intros _ Hno; destruct Hno; by exists v |].
           split; [intros v' _ _ [=] | by intros v' other _ _ _ _].
      * apply negb_eqb_false in Hown.
        split; [| split; [done | split; [done |]]].
        -- split; [| done]. intros _. split; [done |]. split; [done |].
           split; [done |]. by exists v, stored.
        -- intros _ _. split; [intros Hid'; congruence |].
           split; [intros _ Hno; destruct Hno; by exists v |].
           split; [intros v' _ _ [=] |].
           intros v' other _ Hauth' [= <-] Hne.
           by rewrite <- (authenticated_unique _ _ _ _ Hauth Hauth') in Hne.
    + simpl. split; [| split; [done | split; [done |]]].
      * split; [done |]. by intros (_ & _ & _ & v' & task & _ & ? & _).
      * intros _ _. split; [intros Hid'; congruence |].
        split; [intros _ Hno; destruct Hno; by exists v |].
        split; [done | by intros v' other _ _ [=]].
Qed.

Lemma delete_task_route_replies_witness :
  (Routes.delete_task Fixture.config Fixture.pass Fixture.pass
     (Fixture.request (Some Fixture.alice_id) None Fixture.t1_id) Fixture.db).1
    = Sent 204 tt ∧
  tasks (Routes.delete_task Fixture.config Fixture.pass Fixture.pass
           (Fixture.request (Some Fixture.alice_id) None Fixture.t1_id) Fixture.db).2
    !! Fixture.t1_id = None ∧
  Routes.delete_task Fixture.config Fixture.pass Fixture.unsupported
    (Fixture.request (Some Fixture.alice_id) None Fixture.t1_id) Fixture.db
    = (Failed (mkReply 415
                 (Failure "INTERNAL_ERROR" "Unsupported Media Type: application/xml"
                    true)),
       Fixture.db).
Proof.
  destruct (delete_task_route_replies Fixture.config Fixture.pass Fixture.pass
              (Fixture.request (Some Fixture.alice_id) None Fixture.t1_id) Fixture.db)
    as (_ & _ & Hsent & Hgone & _).
  assert ((Routes.delete_task Fixture.config Fixture.pass Fixture.pass
             (Fixture.request (Some Fixture.alice_id) None Fixture.t1_id)
             Fixture.db).1 = Sent 204 tt) as H204.
  { apply Hsent. split; [reflexivity |]. split; [reflexivity |].
    split; [vm_compute; reflexivity |].
    exists Fixture.alice_id, Fixture.t1.
    split; [| split; vm_compute; reflexivity].
    split; [vm_compute; reflexivity |].
    split; [apply UUID_REGEX_hyphenated_hex; vm_compute; reflexivity |].
    eexists; vm_compute; reflexivity. }
  split; [exact H204 |].
  split; [destruct (Hgone H204) as [-> _]; apply lookup_delete_eq |].
  destruct (delete_task_route_replies Fixture.config Fixture.pass Fixture.unsupported
              (Fixture.request (Some Fixture.alice_id) None Fixture.t1_id) Fixture.db)
    as (_ & Hparser & _).
  by rewrite (Hparser _ eq_refl eq_refl).
Defined.

Lemma status_enum_parse s :
  bool_decide (s ∈ ["TODO"; "IN_PROGRESS"; "DONE"; "ARCHIVED"]) = true ↔
  is_Some (TaskStatus_parse s).
Proof.
  rewrite bool_decide_eq_true, !elem_of_cons, elem_of_nil. split.
  - intros [-> | [-> | [-> | [-> | []]]]]; by eexists.
  - intros [st ->%TaskStatus_parse_Some]. destruct st; simpl; auto.
Qed.

(** [GET /tasks] from validation on. *)
Lemma list_tasks_served config request db :
  let status := Request.query request !! "status" in
  let run := Routes.serve config listTasksSchema authMiddleware Routes.list_handler
               request db in
  (∃ s, status = Some s ∧ TaskStatus_parse s = None ∧
        run = (Failed (errorHandler config FastifyValidation), db)) ∨
  ((∀ s, status = Some s → is_Some (TaskStatus_parse s)) ∧
   (¬ ∃ v, authenticated request db v) ∧
   ∃ message db',
     run = (Failed (errorHandler config (UnauthorizedError message)), db') ∧
     same_tables db db') ∨
  (∃ v, (∀ s, status = Some s → is_Some (TaskStatus_parse s)) ∧
        authenticated request db v ∧
        run =
          (Sent 200
             (merge_sort (createdAt_order desc)
                (filter (matches v (status ≫= TaskStatus_parse)) (rows (tasks db)))),
           logged (TaskFindMany v) (logged (UserFindUnique (WhereId v)) db))).
Proof.
  intros status run. subst run. rewrite serve_run.
  unfold listTasksSchema. fold status.
  assert ((∀ s, status = Some s → is_Some (TaskStatus_parse s)) →
          (match status with
           | Some s =>
               if bool_decide (s ∈ ["TODO"; "IN_PROGRESS"; "DONE"; "ARCHIVED"])
               then ret tt else throw FastifyValidation
           | None => ret tt
           end) db = (Ok tt, db)) as Hvalid.
  { intros Hok. destruct status as [s|]; [| done].
    by rewrite (proj2 (status_enum_parse s) (Hok s eq_refl)). }
  assert ((∀ s, status = Some s → is_Some (TaskStatus_parse s)) ∨
          ∃ s, status = Some s ∧ TaskStatus_parse s = None) as [Hok | Hbad].
  { destruct status as [s|]; [| by left].
    destruct (TaskStatus_parse s) as [st|] eqn:Hparse; [left | right; by exists s].
    intros s' [= <-]. by eexists. }
  - right. rewrite (Hvalid Hok).
    destruct (authenticated_or_not request db) as [[v Hauth] | Hno].
    + right. exists v. split; [done |]. split; [done |].
      rewrite (authMiddleware_authenticated _ _ _ Hauth).
      unfold Routes.list_handler. cbn [Request.userId Request.set_userId Request.query].
      fold status. unfold bind, TaskService.getTasks.
      rewrite findByUserId_run.
      * simpl. destruct status as [s|]; [| done]. simpl.
        by destruct (Hok s eq_refl) as [st ->].
      * intros f [= <-]. simpl. destruct status as [s|]; [| by left].
        destruct (Hok s eq_refl) as [st ->%TaskStatus_parse_Some]. right. by exists st.
    + left. split; [done |]. split; [done |].
      destruct (authMiddleware_unauthenticated _ _ Hno) as (message & db' & Hrun).
      pose proof (authMiddleware_tables request db) as Hsame. rewrite Hrun in Hsame.
      exists message, db'. by rewrite Hrun.
  - left. destruct Hbad as (s & Hs & Hparse). exists s.
    split; [done |]. split; [done |]. rewrite Hs.
    destruct (bool_decide _) eqn:Henum; [| done].
    apply status_enum_parse in Henum as [st Hst]. congruence.
Qed.

(** X18: [GET /tasks].  A request the rate limiter rejects gets the
    limiter's error through the error handler and the store is not
    asked.  Past the limiter, a [status] parameter that is none of the
    four names is refused with 400, before the credential is looked at;
    with no such parameter a request that is not authenticated is
    answered 401, and an authenticated request gets 200 with the stored
    tasks of the authenticated user, each once, those with the status
    of the parameter when there is one, and no task of anyone else.
    The route never writes to the tables. *)
Theorem list_tasks_route_replies
    (config : Config) (rateLimit : Stage) (request : Request.t) (db : Db) :
  let status := Request.query request !! "status" in
  let run := Routes.list_tasks config rateLimit request db in
  (∀ e, rateLimit request = Throw e →
        run = (Failed (errorHandler config e), db)) ∧
  (∀ s, rateLimit request = Ok tt → status = Some s → TaskStatus_parse s = None →
        run = (Failed (errorHandler config FastifyValidation), db)) ∧
  (rateLimit request = Ok tt →
   (∀ s, status = Some s → is_Some (TaskStatus_parse s)) →
   (¬ ∃ v, authenticated request db v) →
     Outcome_code run.1 = 401) ∧
  (∀ v, rateLimit request = Ok tt →
        (∀ s, status = Some s → is_Some (TaskStatus_parse s)) →
        authenticated request db v →
        ∃ l, run.1 = Sent 200 l ∧
             (∀ t, t ∈ l ↔
                   (∃ k, tasks db !! k = Some t) ∧
                   Task.userId t = v ∧
                   (∀ s, status = Some s →
                         TaskStatus_parse s = Some (Task.status t))) ∧
             l ≡ₚ filter (matches v (status ≫= TaskStatus_parse)) (rows (tasks db))) ∧
  same_tables db run.2.
Proof.
  intros status run. subst status run. unfold Routes.list_tasks, Routes.behind.
  destruct (rateLimit request) as [[]|e] eqn:Hlimit; simpl.
  2:{ split; [by intros e' [= <-] |]. done. }
  split; [done |].
  destruct (list_tasks_served config request db)
    as [(s & Hs & Hparse & Hrun)
       | [(Hok & Hno & message & db' & Hrun & Hsame) | (v & Hok & Hauth & Hrun)]];
    rewrite Hrun; simpl.
  - split; [done |]. split; [| split; [| done]].
    + intros _ Hok _. destruct (Hok s Hs) as [st Hst]. congruence.
    + intros v _ Hok _. destruct (Hok s Hs) as [st Hst]. congruence.
  - split; [| split; [done | split; [| done]]].
    + intros s _ Hs Hparse. destruct (Hok s Hs) as [st Hst]. congruence.
    + intros v _ _ Hauth. destruct Hno. by exists v.
  - split; [| split; [| split; [| done]]].
    + intros s _ Hs Hparse. destruct (Hok s Hs) as [st Hst]. congruence.
    + intros _ _ Hno. destruct Hno. by exists v.
    + intros v' _ _ Hauth'. rewrite <- (authenticated_unique _ _ _ _ Hauth Hauth').
      eexists. split; [done |]. split; [| apply merge_sort_Permutation].
      intros t.
      rewrite merge_sort_Permutation, list_elem_of_filter, elem_of_rows.
      unfold matches. split.
      * intros [[Hu Hst] Hk]. split; [done |]. split; [done |].
        intros s Hs. rewrite Hs in Hst. simpl in Hst.
        destruct (Hok s Hs) as [st Hparse]. rewrite Hparse in Hst |- *. congruence.
      * intros (Hk & Hu & Hst). split; [| done]. split; [done |].
        destruct (Request.query request !! "status") as [s|]; [| done]. simpl.
        by rewrite (Hst s eq_refl).
Qed.

Lemma list_tasks_route_replies_witness :
  (Routes.list_tasks Fixture.config Fixture.pass
     (Request.mk (<["x-user-id" := Fixture.alice_id]> ∅) (<["status" := "done"]> ∅)
        "" None) Fixture.db).1
    = Failed (mkReply 400 (Failure "VALIDATION_ERROR" "Validation failed" false)) ∧
  ∃ l, (Routes.list_tasks Fixture.config Fixture.pass
          (Request.mk (<["x-user-id" := Fixture.alice_id]> ∅)
             (<["status" := "ARCHIVED"]> ∅) "" None) Fixture.db).1 = Sent 200 l ∧
       ∀ t, t ∈ l → Task.userId t = Fixture.alice_id ∧ Task.status t = ARCHIVED.
Proof.
  split.
  - destruct (list_tasks_route_replies Fixture.config Fixture.pass
                (Request.mk (<["x-user-id" := Fixture.alice_id]> ∅)
                   (<["status" := "done"]> ∅) "" None) Fixture.db) as (_ & Hbad & _).
    rewrite (Hbad "done"); [reflexivity | reflexivity | vm_compute; reflexivity
                           | vm_compute; reflexivity].
  - destruct (list_tasks_route_replies Fixture.config Fixture.pass
                (Request.mk (<["x-user-id" := Fixture.alice_id]> ∅)
                   (<["status" := "ARCHIVED"]> ∅) "" None) Fixture.db)
      as (_ & _ & _ & Hok & _).
    destruct (Hok Fixture.alice_id) as (l & Hl & Hiff & _).
    + reflexivity.
    + intros s Hs. vm_compute in Hs. injection Hs as <-. by eexists.
    + split; [vm_compute; reflexivity |].
      split; [apply UUID_REGEX_hyphenated_hex; vm_compute; reflexivity |].
      eexists; vm_compute; reflexivity.
    + exists l. split; [exact Hl |]. intros t (_ & Hu & Hst)%Hiff.
      split; [exact Hu |].
      specialize (Hst "ARCHIVED"). vm_compute in Hst.
      specialize (Hst eq_refl). by injection Hst.
Defined.




(** * Configuration and the error handler *)

(** X20: what the environment decides about error replies.  The two
    flags are never both set.  Without [NODE_ENV] (or with an empty
    one) [nodeEnv] reads ["development"] and yet neither flag is set.
    A reply carries a stack trace only when [NODE_ENV] is
    ["development"], and never for a schema violation.  When
    [NODE_ENV] is ["production"] a failure of the store is answered
    with 500 and the fixed message, while an application error keeps
    its own status code and message in every environment. *)
Theorem environment_and_error_replies (NODE_ENV : option string) (e : Error) :
  (isProd (config.load NODE_ENV) = true → isDev (config.load NODE_ENV) = false) ∧
  (falsy NODE_ENV = true →
     config.nodeEnv NODE_ENV = "development" ∧
     isDev (config.load NODE_ENV) = false ∧
     isProd (config.load NODE_ENV) = false) ∧
  (Reply_stack (errorHandler (config.load NODE_ENV) e) = true →
     NODE_ENV = Some "development" ∧ e ≠ FastifyValidation) ∧
  (NODE_ENV = Some "production" →
     ∀ f, errorHandler (config.load NODE_ENV) (PrismaError f) =
          mkReply 500 (Failure "INTERNAL_ERROR" "Internal server error" false)) ∧
  (∀ code name message,
     statusCode (errorHandler (config.load NODE_ENV) (AppError code name message))
       = code ∧
     Reply_message (errorHandler (config.load NODE_ENV) (AppError code name message))
       = Some message).
Proof.
  unfold config.load, config.isProd, config.isDev, config.nodeEnv. simpl.
  split; [| split; [| split; [| split]]].
  - intros Hprod%bool_decide_eq_true. apply bool_decide_eq_false. congruence.
  - intros Hfalsy. rewrite Hfalsy. split; [done |].
    destruct NODE_ENV as [s|]; [| done]. simpl in Hfalsy.
    apply String.eqb_eq in Hfalsy as ->. done.
  - destruct e as [code name message| |f|code message]; unfold Reply_stack; simpl;
      [| done | |]; intros Hdev%bool_decide_eq_true; by split.
  - intros -> f. reflexivity.
  - done.
Qed.

Lemma environment_and_error_replies_witness :
  config.nodeEnv None = "development" ∧
  Reply_stack (errorHandler (config.load None) (NotFoundError "Task")) = false ∧
  errorHandler (config.load (Some "production")) (PrismaError P2025) =
    mkReply 500 (Failure "INTERNAL_ERROR" "Internal server error" false).
Proof.
  destruct (environment_and_error_replies None (NotFoundError "Task"))
    as (_ & Hunset & _).
  destruct (environment_and_error_replies (Some "production") (PrismaError P2025))
    as (_ & _ & _ & Hprod & _).
  split; [by apply Hunset |]. split; [reflexivity |]. by apply Hprod.
Defined.
